(** * Action Registry: a shallow embedding of [src/services/actionRegistry.ts]

    The registry is a set of asynchronous handlers over two hosted stores
    (a Firestore document store [db] and a realtime tree [rtdb]).  Each
    handler is embedded as a function in a small state-and-exception monad
    over an explicit [World]; JavaScript objects are finite maps from
    property names to values, and the [Date] built-ins follow the
    ECMAScript time-value arithmetic. *)

From Stdlib Require Import ZArith List Bool Lia.
From stdpp Require Import gmap strings list fin_maps pretty.

Set Warnings "-register-all".
Open Scope Z_scope.

(* ===================================================================== *)
(** ** JavaScript values *)
(* ===================================================================== *)

(** Numbers are the integral ones ([credits], prices, millisecond clocks). *)
Inductive JsValue : Type :=
| VUndefined
| VNull
| VBool (b : bool)
| VNum (z : Z)
| VStr (s : string)
| VArr (l : list JsValue)
| VObj (o : gmap string JsValue).

Abbreviation JsObject := (gmap string JsValue).

(** [o.k]: reading a property that is not there gives [undefined]. *)
Definition get_field (o : JsObject) (k : string) : JsValue :=
  default VUndefined (o !! k).

(** [{ ...a, ...b }]: own properties of [b] win over those of [a]. *)
Definition spread (a b : JsObject) : JsObject := b ∪ a.

(** An object literal, written as its list of properties (the literals of
    the registry never repeat a name). *)
Definition obj (fields : list (string * JsValue)) : JsObject :=
  list_to_map fields.

(** ToBoolean. *)
Definition truthy (v : JsValue) : bool :=
  match v with
  | VUndefined | VNull => false
  | VBool b => b
  | VNum z => negb (z =? 0)
  | VStr s => negb (String.eqb s "")
  | VArr _ | VObj _ => true
  end.

(** [a || b]. *)
Definition js_or (a b : JsValue) : JsValue := if truthy a then a else b.

Definition join_comma (l : list string) : string :=
  match l with
  | [] => ""
  | x :: r => fold_left (fun acc y => acc +:+ "," +:+ y) r x
  end.

(** ToString, as used by template literals. *)
Fixpoint ToString (v : JsValue) : string :=
  match v with
  | VUndefined => "undefined"
  | VNull => "null"
  | VBool true => "true"
  | VBool false => "false"
  | VNum z => pretty z
  | VStr s => s
  | VArr l =>
      join_comma
        (List.map (fun x => match x with
                            | VUndefined | VNull => ""
                            | _ => ToString x
                            end) l)
  | VObj _ => "[object Object]"
  end.

(** Results of evaluation: a value, or a thrown [Error] with its message. *)
Inductive Result (A : Type) : Type :=
| Ok (a : A)
| Throw (msg : string).
Arguments Ok {A} a.
Arguments Throw {A} msg.

(** The elements produced by [...v] inside an array literal.  Arrays give
    their elements, strings their characters; anything else is not
    iterable and the spread throws a TypeError. *)
Definition iterate (v : JsValue) : Result (list JsValue) :=
  match v with
  | VArr l => Ok l
  | VStr s => Ok (List.map (fun c => VStr (String c EmptyString)) (String.list_ascii_of_string s))
  | _ => Throw (ToString v +:+ " is not iterable")
  end.

(* ===================================================================== *)
(** ** ECMAScript time values *)
(* ===================================================================== *)

Module JsDate.

Definition msPerDay : Z := 86400000.
Definition msPerHour : Z := 3600000.
Definition msPerMinute : Z := 60000.
Definition msPerSecond : Z := 1000.

Definition Day (t : Z) : Z := t / msPerDay.
Definition TimeWithinDay (t : Z) : Z := t mod msPerDay.

Definition DayFromYear (y : Z) : Z :=
  365 * (y - 1970) + (y - 1969) / 4 - (y - 1901) / 100 + (y - 1601) / 400.

Definition isLeap (y : Z) : bool :=
  ((y mod 4 =? 0) && negb (y mod 100 =? 0)) || (y mod 400 =? 0).

(** The largest year whose first day is not after [t]: an estimate from the
    mean year length, corrected by at most one. *)
Definition YearFromDay (d : Z) : Z :=
  let y := 1970 + (d * 400) / 146097 in
  if d <? DayFromYear y then y - 1
  else if DayFromYear (y + 1) <=? d then y + 1
  else y.

Definition YearFromTime (t : Z) : Z := YearFromDay (Day t).
Definition InLeapYear (t : Z) : Z := if isLeap (YearFromTime t) then 1 else 0.
Definition DayWithinYear (t : Z) : Z := Day t - DayFromYear (YearFromTime t).

(** Day number within the year of the first day of month [m] (0..11). *)
Definition monthStart (m : Z) (leap : Z) : Z :=
  if m =? 0 then 0
  else if m =? 1 then 31
  else if m =? 2 then 59 + leap
  else if m =? 3 then 90 + leap
  else if m =? 4 then 120 + leap
  else if m =? 5 then 151 + leap
  else if m =? 6 then 181 + leap
  else if m =? 7 then 212 + leap
  else if m =? 8 then 243 + leap
  else if m =? 9 then 273 + leap
  else if m =? 10 then 304 + leap
  else 334 + leap.

Definition MonthFromTime (t : Z) : Z :=
  let d := DayWithinYear t in
  let l := InLeapYear t in
  if d <? 31 then 0
  else if d <? 59 + l then 1
  else if d <? 90 + l then 2
  else if d <? 120 + l then 3
  else if d <? 151 + l then 4
  else if d <? 181 + l then 5
  else if d <? 212 + l then 6
  else if d <? 243 + l then 7
  else if d <? 273 + l then 8
  else if d <? 304 + l then 9
  else if d <? 334 + l then 10
  else 11.

Definition DateFromTime (t : Z) : Z :=
  DayWithinYear t - monthStart (MonthFromTime t) (InLeapYear t) + 1.

(** MakeDay(year, month, date): the day number of the first of the month,
    months beyond 0..11 carried into the year, plus [date - 1]. *)
Definition MakeDay (year month date : Z) : Z :=
  let ym := year + month / 12 in
  let mn := month mod 12 in
  DayFromYear ym + monthStart mn (if isLeap ym then 1 else 0) + date - 1.

Definition MakeDate (day time : Z) : Z := day * msPerDay + time.

(** TimeClip: time values beyond 8.64e15 ms are NaN ([None]). *)
Definition TimeClip (t : Z) : option Z :=
  if Z.abs t <=? 8640000000000000 then Some t else None.

Fixpoint pad (n : nat) (z : Z) : string :=
  match n with
  | O => ""
  | S k => pad k (z / 10) +:+ pretty (z mod 10)
  end.

Definition yearString (y : Z) : string :=
  if (0 <=? y) && (y <=? 9999) then pad 4 y
  else (if y <? 0 then "-" else "+") +:+ pad 6 (Z.abs y).

(** [Date.prototype.toISOString] of a valid time value. *)
Definition isoString (t : Z) : string :=
  yearString (YearFromTime t) +:+ "-" +:+ pad 2 (MonthFromTime t + 1) +:+ "-"
  +:+ pad 2 (DateFromTime t) +:+ "T"
  +:+ pad 2 (TimeWithinDay t / msPerHour) +:+ ":"
  +:+ pad 2 (TimeWithinDay t mod msPerHour / msPerMinute) +:+ ":"
  +:+ pad 2 (TimeWithinDay t mod msPerMinute / msPerSecond) +:+ "."
  +:+ pad 3 (t mod msPerSecond) +:+ "Z".

(** [toISOString] throws a RangeError on an invalid date. *)
Definition toISOString (d : option Z) : Result string :=
  match d with
  | Some t => Ok (isoString t)
  | None => Throw "Invalid time value"
  end.

End JsDate.

(* ===================================================================== *)
(** ** The two stores, the clock and the handler monad *)
(* ===================================================================== *)

(** The calls a handler makes on the store client.  Document and database
    references ([doc], [ref], [collection], [query]) are built without I/O;
    user ids are taken to be single path segments. *)
Inductive StoreOp : Type :=
| GetDocsUsers                      (* getDocs(collection(db, "users")) *)
| QueryLogs (limit : Z)             (* getDocs(query(collection(db, "ai_interactions"), ...)) *)
| DeleteDoc (userId : string)       (* deleteDoc(doc(db, "users", userId)) *)
| GetLiveUser (userId : string)     (* get(ref(rtdb, `users/${userId}`)) *)
| RemoveLiveUser (userId : string)  (* remove(ref(rtdb, `users/${userId}`)) *)
| GetLiveSettings                   (* get(ref(rtdb, 'system_settings')) *)
| SaveUserToLive (user : JsObject)  (* saveUserToLive(user) *)
| SaveSystemSettings (settings : JsObject).

(** [fs_users]: the documents of the Firestore collection "users", in the
    order the store returns them, each with its document id.
    [fs_logs]: the documents of "ai_interactions", kept in descending
    timestamp order.  [live_users], [live_settings]: the realtime tree
    under [users/] and at [system_settings].  [trace] lists every store
    call issued so far, oldest first; [clock_reads] counts clock readings. *)
Record World : Type := mkWorld {
  fs_users : list (string * JsObject);
  fs_logs : list JsObject;
  live_users : gmap string JsObject;
  live_settings : option JsObject;
  trace : list StoreOp;
  clock_reads : nat
}.

(** What the handlers cannot control: the successive clock readings, which
    store calls fail (by position in the trace, with the error message),
    the local time zone adjustment at a UTC instant and at a local time
    value, and the engine's [new Date(v)] conversion ([None] is an invalid
    date). *)
Record Env : Type := mkEnv {
  clock : nat -> Z;
  fault : nat -> option string;
  tza_utc : Z -> Z;
  tza_local : Z -> Z;
  Date_of : JsValue -> option Z
}.

Definition M (A : Type) : Type := World -> Result A * World.

Definition ret {A} (a : A) : M A := fun w => (Ok a, w).
Definition throw {A} (msg : string) : M A := fun w => (Throw msg, w).

Definition bind {A B} (m : M A) (k : A -> M B) : M B :=
  fun w => match m w with
           | (Ok a, w1) => k a w1
           | (Throw e, w1) => (Throw e, w1)
           end.

(** [try { body } catch (e) { handler(e.message) }]. *)
Definition try_catch {A} (body : M A) (handler : string -> M A) : M A :=
  fun w => match body w with
           | (Ok a, w1) => (Ok a, w1)
           | (Throw e, w1) => handler e w1
           end.

(** A synchronous expression that may throw. *)
Definition lift {A} (r : Result A) : M A := fun w => (r, w).

Declare Scope js_scope.
Delimit Scope js_scope with js.
Notation "x <- m ;; k" := (bind m (fun x => k))
  (at level 100, m at next level, right associativity) : js_scope.
Notation "m ;;; k" := (bind m (fun _ => k))
  (at level 100, right associativity) : js_scope.
Open Scope js_scope.

Definition log_op (op : StoreOp) (w : World) : World :=
  mkWorld (fs_users w) (fs_logs w) (live_users w) (live_settings w)
          (trace w ++ [op]) (clock_reads w).

Definition set_fs_users (v : list (string * JsObject)) (w : World) : World :=
  mkWorld v (fs_logs w) (live_users w) (live_settings w) (trace w) (clock_reads w).

Definition set_live_users (v : gmap string JsObject) (w : World) : World :=
  mkWorld (fs_users w) (fs_logs w) v (live_settings w) (trace w) (clock_reads w).

Definition set_live_settings (v : option JsObject) (w : World) : World :=
  mkWorld (fs_users w) (fs_logs w) (live_users w) v (trace w) (clock_reads w).

(** What is held in the two stores, apart from the bookkeeping. *)
Definition stores (w : World) :
  list (string * JsObject) * list JsObject * gmap string JsObject * option JsObject :=
  (fs_users w, fs_logs w, live_users w, live_settings w).

(** The last [n] elements of a list. *)
Definition lastn {A} (n : nat) (l : list A) : list A :=
  skipn (length l - n)%nat l.

(** The [historyEntry] literal of [grantSubscription]: [stamp] is the
    reading of [Date.now()], [entryEnd] the end marker. *)
Definition grant_historyEntry (plan level : string) (now stamp : Z)
    (entryEnd : JsValue) : JsObject :=
  obj [("id", VStr ("grant-" +:+ pretty stamp));
       ("tier", VStr plan);
       ("level", VStr level);
       ("startDate", VStr (JsDate.isoString now));
       ("endDate", entryEnd);
       ("durationHours", VNum 0);
       ("price", VNum 0);
       ("originalPrice", VNum 0);
       ("isFree", VBool true);
       ("grantSource", VStr "ADMIN");
       ("grantedBy", VStr "AI_AGENT")].

(** The fields [grantSubscription] hands to [updateUser]. *)
Definition grant_updates (plan level : string) (userEnd : JsValue)
    (newHistory : list JsValue) : JsObject :=
  obj [("subscriptionTier", VStr plan);
       ("subscriptionLevel", VStr level);
       ("subscriptionEndDate", userEnd);
       ("isPremium", VBool true);
       ("subscriptionHistory", VArr newHistory);
       ("grantedByAdmin", VBool true)].

Section Handlers.

Variable env : Env.

(** One awaited store call: it is recorded, and either rejects with the
    fault the environment schedules for it, leaving the stores as they
    were, or takes effect. *)
Definition store_call {A} (op : StoreOp) (effect : World -> A * World) : M A :=
  fun w =>
    let w1 := log_op op w in
    match fault env (length (trace w)) with
    | Some msg => (Throw msg, w1)
    | None => let (a, w2) := effect w1 in (Ok a, w2)
    end.

(** [new Date()] / [Date.now()]: the next clock reading. *)
Definition Date_now : M Z :=
  fun w => (Ok (clock env (clock_reads w)),
            mkWorld (fs_users w) (fs_logs w) (live_users w) (live_settings w)
                    (trace w) (S (clock_reads w))).

Definition LocalTime (t : Z) : Z := t + tza_utc env t.
Definition UTC (t : Z) : Z := t - tza_local env t.

Definition getDate (t : Z) : Z := JsDate.DateFromTime (LocalTime t).
Definition getMonth (t : Z) : Z := JsDate.MonthFromTime (LocalTime t).

(** [d.setDate(date)] on a valid date [t]: the new time value. *)
Definition setDate (t : Z) (date : Z) : option Z :=
  let lt := LocalTime t in
  JsDate.TimeClip
    (UTC (JsDate.MakeDate
            (JsDate.MakeDay (JsDate.YearFromTime lt) (JsDate.MonthFromTime lt) date)
            (JsDate.TimeWithinDay lt))).

(** [d.setMonth(month)] on a valid date [t]. *)
Definition setMonth (t : Z) (month : Z) : option Z :=
  let lt := LocalTime t in
  JsDate.TimeClip
    (UTC (JsDate.MakeDate
            (JsDate.MakeDay (JsDate.YearFromTime lt) month (JsDate.DateFromTime lt))
            (JsDate.TimeWithinDay lt))).

(** *** Store client primitives *)

Definition getDocs_users : M (list JsObject) :=
  store_call GetDocsUsers (fun w => (List.map snd (fs_users w), w)).

(** [limitToLast] rejects a limit that is not positive when the query is
    built; the query returns the last [limit] documents in descending
    timestamp order. *)
Definition getDocs_logs (limit : Z) : M (list JsObject) :=
  if limit <=? 0 then throw "limitToLast: expected a positive number"
  else store_call (QueryLogs limit)
         (fun w => (lastn (Z.to_nat limit) (fs_logs w), w)).

Definition deleteDoc_user (userId : string) : M unit :=
  store_call (DeleteDoc userId)
    (fun w => (tt, set_fs_users
                     (List.filter (fun d => negb (String.eqb (fst d) userId)) (fs_users w)) w)).

(** The snapshot of [users/<userId>]: [None] when [exists()] is false. *)
Definition get_live_user (userId : string) : M (option JsObject) :=
  store_call (GetLiveUser userId) (fun w => (live_users w !! userId, w)).

Definition remove_live_user (userId : string) : M unit :=
  store_call (RemoveLiveUser userId)
    (fun w => (tt, set_live_users (delete userId (live_users w)) w)).

Definition get_live_settings : M (option JsObject) :=
  store_call GetLiveSettings (fun w => (live_settings w, w)).

(** Modelled from the spec: [saveUserToLive] of the firebase module, which
    is not among the sources.  It writes the record it is given, in full,
    as the live record of the user the record's [id] names. *)
Definition saveUserToLive (user : JsObject) : M unit :=
  store_call (SaveUserToLive user)
    (fun w => (tt, set_live_users
                     (<[ToString (get_field user "id") := user]> (live_users w)) w)).

(** Modelled from the spec: [saveSystemSettings] of the firebase module,
    which is not among the sources.  It writes the settings singleton back
    whole. *)
Definition saveSystemSettings (settings : JsObject) : M unit :=
  store_call (SaveSystemSettings settings)
    (fun w => (tt, set_live_settings (Some settings) w)).

(** *** Helpers *)

(** [getAllUsers]: every user document, or the empty list when the read
    fails. *)
Definition getAllUsers : M (list JsObject) :=
  try_catch getDocs_users (fun _ => ret []).

(** [getSettings]: the settings record, [null] ([None]) when it does not
    exist or the read fails. *)
Definition getSettings : M (option JsObject) :=
  try_catch get_live_settings (fun _ => ret None).

(** *** Action implementations *)

Definition deleteUser (userId : string) : M string :=
  try_catch
    (deleteDoc_user userId ;;;
     remove_live_user userId ;;;
     ret ("User " +:+ userId +:+ " deleted successfully from Firestore and RTDB."))
    (fun e => throw ("Failed to delete user " +:+ userId +:+ ": " +:+ e)).

Definition updateUser (userId : string) (updates : JsObject) : M string :=
  try_catch
    (snapshot <- get_live_user userId ;;
     match snapshot with
     | None => throw "User not found"
     | Some currentUser =>
         let updatedUser := spread currentUser updates in
         saveUserToLive updatedUser ;;;
         ret ("User " +:+ userId +:+ " updated.")
     end)
    (fun e => throw ("Failed to update user: " +:+ e)).

Definition banUser (userId : string) (reason : string) : M string :=
  updateUser userId (obj [("isLocked", VBool true)]).

Definition unbanUser (userId : string) : M string :=
  updateUser userId (obj [("isLocked", VBool false)]).

(** The end date of a grant: [None] is [null], [Some d] a [Date] whose time
    value is [d]. *)
Definition grant_endDate (plan : string) (now endDate : Z) : option (option Z) :=
  if String.eqb plan "WEEKLY" then Some (setDate endDate (getDate now + 7))
  else if String.eqb plan "MONTHLY" then Some (setDate endDate (getDate now + 30))
  else if String.eqb plan "YEARLY" then Some (setDate endDate (getDate now + 365))
  else None.

(** [endDate ? endDate.toISOString() : otherwise]. *)
Definition endDate_or (endDate : option (option Z)) (otherwise : JsValue) : M JsValue :=
  match endDate with
  | Some d => s <- lift (JsDate.toISOString d) ;; ret (VStr s)
  | None => ret otherwise
  end.

Definition grantSubscription (userId plan level : string) : M string :=
  now <- Date_now ;;
  endDate0 <- Date_now ;;
  let endDate := grant_endDate plan now endDate0 in
  stamp <- Date_now ;;
  entryEnd <- endDate_or endDate (VStr "LIFETIME") ;;
  let historyEntry := grant_historyEntry plan level now stamp entryEnd in
  snapshot <- get_live_user userId ;;
  match snapshot with
  | None => throw "User not found"
  | Some user =>
      prior <- lift (iterate (js_or (get_field user "subscriptionHistory") (VArr []))) ;;
      let newHistory := VObj historyEntry :: prior in
      userEnd <- endDate_or endDate VUndefined ;;
      updateUser userId (grant_updates plan level userEnd newHistory)
  end.

(** [type] defaults to 'TEXT' and, like [giftValue], is not used. *)
Definition broadcastMessage (message : string) (type : option string)
    (giftValue : option Z) : M string :=
  settings <- getSettings ;;
  match settings with
  | Some s =>
      let newSettings := spread s (obj [("noticeText", VStr message)]) in
      saveSystemSettings newSettings ;;;
      ret "Broadcast banner updated successfully."
  | None => ret "Failed to fetch settings."
  end.

Definition sendInboxMessage (userId text : string) : M string :=
  snapshot <- get_live_user userId ;;
  match snapshot with
  | None => throw "User not found"
  | Some user =>
      stamp <- Date_now ;;
      date <- Date_now ;;
      let newMsg :=
        obj [("id", VStr ("msg-" +:+ pretty stamp));
             ("text", VStr text);
             ("date", VStr (JsDate.isoString date));
             ("read", VBool false);
             ("type", VStr "TEXT")] in
      prior <- lift (iterate (js_or (get_field user "inbox") (VArr []))) ;;
      let updatedInbox := VObj newMsg :: prior in
      updateUser userId (obj [("inbox", VArr updatedInbox)]) ;;;
      ret ("Message sent to " +:+ ToString (get_field user "name") +:+ ".")
  end.

Definition dquote : string := String (Ascii.ascii_of_nat 34) EmptyString.

Definition createWeeklyTest (name subject : string) (questionCount : Z) : M string :=
  settings <- getSettings ;;
  match settings with
  | None => throw "Settings not found"
  | Some s =>
      stamp <- Date_now ;;
      createdAt <- Date_now ;;
      let newTest :=
        obj [("id", VStr ("test-" +:+ pretty stamp));
             ("name", VStr name);
             ("description", VStr ("Subject: " +:+ subject));
             ("isActive", VBool true);
             ("classLevel", VStr "10");
             ("questions", VArr []);
             ("totalQuestions", VNum questionCount);
             ("passingScore", VNum 40);
             ("createdAt", VStr (JsDate.isoString createdAt));
             ("durationMinutes", VNum 60);
             ("selectedSubjects", VArr [VStr subject])] in
      prior <- lift (iterate (js_or (get_field s "weeklyTests") (VArr []))) ;;
      let updatedTests := prior ++ [VObj newTest] in
      saveSystemSettings (spread s (obj [("weeklyTests", VArr updatedTests)])) ;;;
      ret ("Weekly Test " +:+ dquote +:+ name +:+ dquote +:+ " created (Empty Questions).")
  end.

(** [!u.lastActiveTime || new Date(u.lastActiveTime) < monthAgo]; a
    comparison with an invalid date is false. *)
Definition inactive_since (monthAgo : option Z) (u : JsObject) : bool :=
  let v := get_field u "lastActiveTime" in
  negb (truthy v)
  || match Date_of env v, monthAgo with
     | Some t, Some m => t <? m
     | _, _ => false
     end.

(** The element [scanUsers] returns for a user. *)
Definition summary (u : JsObject) : JsObject :=
  obj [("id", get_field u "id");
       ("name", get_field u "name");
       ("email", get_field u "email");
       ("role", get_field u "role");
       ("credits", get_field u "credits");
       ("tier", get_field u "subscriptionTier")].

Definition scanUsers (filter : string) : M (list JsObject) :=
  users <- getAllUsers ;;
  let result := users in
  let result :=
    if String.eqb filter "PREMIUM"
    then List.filter (fun u => truthy (get_field u "isPremium")) users
    else result in
  let result :=
    if String.eqb filter "FREE"
    then List.filter (fun u => negb (truthy (get_field u "isPremium"))) users
    else result in
  result <-
    (if String.eqb filter "INACTIVE"
     then now <- Date_now ;;
          let monthAgo := setMonth now (getMonth now - 1) in
          ret (List.filter (inactive_since monthAgo) users)
     else ret result) ;;
  ret (List.map summary result).

(** [limit] is [None] when the argument is omitted; it then defaults to 20. *)
Definition getRecentLogs (limit : option Z) : M (list JsObject) :=
  try_catch (getDocs_logs (default 20 limit)) (fun _ => ret []).

Definition updateSystemSettings (updates : JsObject) : M string :=
  try_catch
    (current <- getSettings ;;
     match current with
     | None => throw "Settings not found"
     | Some c =>
         let newSettings := spread c updates in
         saveSystemSettings newSettings ;;;
         ret "System Settings updated successfully."
     end)
    (fun e => throw ("Failed to update settings: " +:+ e)).

End Handlers.

(* ===================================================================== *)
(** ** The registry map and the tool definitions *)
(* ===================================================================== *)

(** The eleven functions the registry holds. *)
Inductive Handler : Type :=
| Fn_deleteUser
| Fn_updateUser
| Fn_banUser
| Fn_unbanUser
| Fn_grantSubscription
| Fn_broadcastMessage
| Fn_sendInboxMessage
| Fn_createWeeklyTest
| Fn_scanUsers
| Fn_getRecentLogs
| Fn_updateSystemSettings.

(** [ActionRegistry]: property name and the function it is bound to. *)
Definition ActionRegistry : list (string * Handler) :=
  [("deleteUser", Fn_deleteUser);
   ("updateUser", Fn_updateUser);
   ("banUser", Fn_banUser);
   ("unbanUser", Fn_unbanUser);
   ("grantSubscription", Fn_grantSubscription);
   ("broadcastMessage", Fn_broadcastMessage);
   ("sendInboxMessage", Fn_sendInboxMessage);
   ("createWeeklyTest", Fn_createWeeklyTest);
   ("scanUsers", Fn_scanUsers);
   ("getRecentLogs", Fn_getRecentLogs);
   ("updateSystemSettings", Fn_updateSystemSettings)].

Definition registry_keys : list string := List.map fst ActionRegistry.

Definition registry_lookup (name : string) : option Handler :=
  snd <$> List.find (fun e => String.eqb (fst e) name) ActionRegistry.

(** One entry of a tool's [properties]. *)
Record ParamSchema : Type := mkParam {
  param_name : string;
  param_type : string;
  param_description : option string;
  param_enum : option (list string)
}.

(** One element of [adminTools] (the [function] part of it; every element
    has [type: "function"] and [parameters.type: "object"]). *)
Record ToolSchema : Type := mkTool {
  tool_name : string;
  tool_description : string;
  tool_properties : list ParamSchema;
  tool_required : list string
}.

Definition adminTools : list ToolSchema :=
  [ mkTool "deleteUser" "Delete a user permanently from the system."
      [mkParam "userId" "string" (Some "The ID of the user to delete") None]
      ["userId"];
    mkTool "updateUser" "Update user details like credits."
      [mkParam "userId" "string" (Some "The ID of the user") None;
       mkParam "updates" "object"
         (Some "JSON object of fields to update (e.g., { credits: 500 })") None]
      ["userId"; "updates"];
    mkTool "grantSubscription" "Give a premium subscription to a user."
      [mkParam "userId" "string" (Some "The ID of the user") None;
       mkParam "plan" "string" None (Some ["WEEKLY"; "MONTHLY"; "YEARLY"; "LIFETIME"]);
       mkParam "level" "string" None (Some ["BASIC"; "ULTRA"])]
      ["userId"; "plan"; "level"];
    mkTool "banUser" "Lock/Ban a user account."
      [mkParam "userId" "string" (Some "The ID of the user") None;
       mkParam "reason" "string" (Some "Reason for banning") None]
      ["userId"];
    mkTool "unbanUser" "Unlock/Unban a user account."
      [mkParam "userId" "string" (Some "The ID of the user") None]
      ["userId"];
    mkTool "broadcastMessage" "Set a global notice/banner text for all users."
      [mkParam "message" "string" (Some "The message text to display") None]
      ["message"];
    mkTool "sendInboxMessage" "Send a personal message to a specific user's inbox."
      [mkParam "userId" "string" (Some "The ID of the user") None;
       mkParam "text" "string" (Some "The message content") None]
      ["userId"; "text"];
    mkTool "createWeeklyTest" "Create a new Weekly Test (structure only)."
      [mkParam "name" "string" (Some "Name of the test") None;
       mkParam "subject" "string" (Some "Subject of the test") None;
       mkParam "questionCount" "number" (Some "Total questions") None]
      ["name"; "subject"; "questionCount"];
    mkTool "scanUsers" "List users based on a filter."
      [mkParam "filter" "string" None (Some ["ALL"; "PREMIUM"; "FREE"; "INACTIVE"])]
      ["filter"];
    mkTool "updateSystemSettings"
      "Update global system settings (Theme, AI Limits, Maintenance)."
      [mkParam "updates" "object"
         (Some "JSON object of settings to update (e.g. {themeColor: '#000000', maintenanceMode: true, aiLimits: {free: 10}})")
         None]
      ["updates"] ].

Definition catalog_names : list string := List.map tool_name adminTools.

(* ===================================================================== *)
(** ** The dispatcher *)
(* ===================================================================== *)

Inductive DispatchError : Type :=
| UnknownOperation
| InvalidArguments
| HandlerFailed (operation : string) (message : string).

Inductive Outcome : Type :=
| Done (result : JsValue)
| Failed (e : DispatchError).

Definition find_tool (name : string) : option ToolSchema :=
  List.find (fun t => String.eqb (tool_name t) name) adminTools.

(** Modelled from the spec: the shape check of the dispatcher (no
    dispatcher is among the sources).  A value has the declared shape when
    it is of the declared type (string, number or object) and, for an
    enum-typed parameter, a member of the declared set. *)
Definition type_ok (p : ParamSchema) (v : JsValue) : bool :=
  match v with
  | VStr _ => String.eqb (param_type p) "string"
  | VNum _ => String.eqb (param_type p) "number"
  | VObj _ => String.eqb (param_type p) "object"
  | VUndefined | VNull | VBool _ | VArr _ => false
  end.

Definition enum_ok (p : ParamSchema) (v : JsValue) : bool :=
  match param_enum p with
  | Some members =>
      match v with
      | VStr s => existsb (String.eqb s) members
      | _ => false
      end
  | None => true
  end.

Definition shape_ok (p : ParamSchema) (v : JsValue) : bool :=
  type_ok p v && enum_ok p v.

(** Modelled from the spec: argument validation of the dispatcher.  Every
    required parameter is present and every declared parameter that is
    present has the declared shape. *)
Definition validate (t : ToolSchema) (args : JsObject) : bool :=
  forallb (fun r => bool_decide (is_Some (args !! r))) (tool_required t)
  && forallb (fun p => match args !! param_name p with
                       | Some v => shape_ok p v
                       | None => true
                       end) (tool_properties t).

Definition arg_str (args : JsObject) (k : string) : string :=
  match get_field args k with VStr s => s | v => ToString v end.

Definition arg_obj (args : JsObject) (k : string) : JsObject :=
  match get_field args k with VObj o => o | _ => ∅ end.

Definition arg_num (args : JsObject) (k : string) : Z :=
  match get_field args k with VNum z => z | _ => 0 end.

Definition arg_opt_num (args : JsObject) (k : string) : option Z :=
  match get_field args k with VNum z => Some z | _ => None end.

Definition arg_opt_str (args : JsObject) (k : string) : option string :=
  match get_field args k with VStr s => Some s | _ => None end.

Definition as_string (m : M string) : M JsValue := s <- m ;; ret (VStr s).
Definition as_array (m : M (list JsObject)) : M JsValue :=
  l <- m ;; ret (VArr (List.map VObj l)).

(** Modelled from the spec: how the dispatcher applies a handler to the
    argument mapping, each parameter of the handler taking the argument of
    its name. *)
Definition call_handler (env : Env) (h : Handler) (args : JsObject) : M JsValue :=
  match h with
  | Fn_deleteUser => as_string (deleteUser env (arg_str args "userId"))
  | Fn_updateUser =>
      as_string (updateUser env (arg_str args "userId") (arg_obj args "updates"))
  | Fn_banUser =>
      as_string (banUser env (arg_str args "userId") (arg_str args "reason"))
  | Fn_unbanUser => as_string (unbanUser env (arg_str args "userId"))
  | Fn_grantSubscription =>
      as_string (grantSubscription env (arg_str args "userId")
                   (arg_str args "plan") (arg_str args "level"))
  | Fn_broadcastMessage =>
      as_string (broadcastMessage env (arg_str args "message")
                   (arg_opt_str args "type") (arg_opt_num args "giftValue"))
  | Fn_sendInboxMessage =>
      as_string (sendInboxMessage env (arg_str args "userId") (arg_str args "text"))
  | Fn_createWeeklyTest =>
      as_string (createWeeklyTest env (arg_str args "name") (arg_str args "subject")
                   (arg_num args "questionCount"))
  | Fn_scanUsers => as_array (scanUsers env (arg_str args "filter"))
  | Fn_getRecentLogs => as_array (getRecentLogs env (arg_opt_num args "limit"))
  | Fn_updateSystemSettings =>
      as_string (updateSystemSettings env (arg_obj args "updates"))
  end.

(** Modelled from the spec: [dispatch(name, arguments)] (section 4.1; no
    dispatcher is among the sources).  The name is resolved against the
    catalog, the arguments are validated against the descriptor, and only
    then does the registry's handler run; a handler's error is wrapped with
    the operation name. *)
Definition dispatch (env : Env) (name : string) (args : JsObject)
    (w : World) : Outcome * World :=
  match find_tool name with
  | None => (Failed UnknownOperation, w)
  | Some t =>
      if validate t args then
        match registry_lookup name with
        | None => (Failed UnknownOperation, w)
        | Some h =>
            match call_handler env h args w with
            | (Ok v, w1) => (Done v, w1)
            | (Throw e, w1) => (Failed (HandlerFailed name e), w1)
            end
        end
      else (Failed InvalidArguments, w)
  end.

(* ===================================================================== *)
(** ** Vocabulary of the statements *)
(* ===================================================================== *)

(** The world after [n] further clock readings. *)
Definition ticks (n : nat) (w : World) : World :=
  mkWorld (fs_users w) (fs_logs w) (live_users w) (live_settings w)
          (trace w) (n + clock_reads w).

(** The world after both deletions of [deleteUser] have gone through. *)
Definition deleted (userId : string) (w : World) : World :=
  mkWorld (List.filter (fun d => negb (String.eqb d.1 userId)) (fs_users w))
          (fs_logs w)
          (delete userId (live_users w))
          (live_settings w)
          (trace w ++ [DeleteDoc userId; RemoveLiveUser userId])
          (clock_reads w).

(** The world after [updateUser] has read the live record of [userId] and
    handed [merged] to [saveUserToLive]. *)
Definition updated (userId : string) (merged : JsObject) (w : World) : World :=
  mkWorld (fs_users w) (fs_logs w)
          (<[ToString (get_field merged "id") := merged]> (live_users w))
          (live_settings w)
          (trace w ++ [GetLiveUser userId; SaveUserToLive merged])
          (clock_reads w).

(** The six property names of a [scanUsers] element. *)
Definition summary_fields : gset string :=
  {[ "id"; "name"; "email"; "role"; "credits"; "tier" ]}.

(** A user without a usable last-active timestamp: the property is
    missing, [undefined], [null], or one of the empty placeholders that
    JavaScript counts as false. *)
Definition no_last_active (u : JsObject) : Prop :=
  truthy (get_field u "lastActiveTime") = false.

(** A user last active strictly before the instant [bound]. *)
Definition last_active_before (env : Env) (bound : option Z) (u : JsObject) : Prop :=
  exists t m, Date_of env (get_field u "lastActiveTime") = Some t
              /\ bound = Some m /\ t < m.

(** A required parameter of [t] that [args] does not carry. *)
Definition missing_required (t : ToolSchema) (args : JsObject) : Prop :=
  exists r, In r (tool_required t) /\ args !! r = None.

(** An enum-typed parameter of [t] whose argument is outside the declared
    set. *)
Definition enum_violation (t : ToolSchema) (args : JsObject) : Prop :=
  exists p members v,
    In p (tool_properties t) /\ param_enum p = Some members
    /\ args !! param_name p = Some v
    /\ forall m, In m members -> v <> VStr m.

(* ===================================================================== *)
(** ** Sample data *)
(* ===================================================================== *)

Module Sample.

(** 2024-03-05T17:00:00.000Z. *)
Definition t0 : Z := 1709658000000.

(** The instants the sample records mention. *)
Definition known_times : list Z :=
  [t0; 1707152400000; 1707152399999; 1701800000000; 1709000000000].

(** [new Date(v)] on numbers and on the ISO strings of [known_times]. *)
Definition date_of (v : JsValue) : option Z :=
  match v with
  | VNum z => Some z
  | VStr s => List.find (fun t => String.eqb (JsDate.isoString t) s) known_times
  | _ => None
  end.

(** A UTC host whose clock stands at [t0] and whose stores never fail. *)
Definition env_utc : Env :=
  mkEnv (fun _ => t0) (fun _ => None) (fun _ => 0) (fun _ => 0) date_of.

(** The same host, with the first store call failing. *)
Definition env_down : Env :=
  mkEnv (fun _ => t0) (fun n => if Nat.eqb n 0 then Some "unavailable" else None)
        (fun _ => 0) (fun _ => 0) date_of.


(** A UTC host whose clock passes midnight between the first reading,
    2024-01-31T23:59:59.999Z, and the later ones. *)
Definition env_midnight : Env :=
  mkEnv (fun n => if Nat.eqb n 0 then 1706745599999 else 1706745600000)
        (fun _ => None) (fun _ => 0) (fun _ => 0) date_of.

Definition old_grant : JsObject :=
  obj [("id", VStr "grant-1701800000000");
       ("tier", VStr "MONTHLY");
       ("level", VStr "BASIC");
       ("startDate", VStr "2023-12-05T18:13:20.000Z");
       ("endDate", VStr "2024-01-04T18:13:20.000Z");
       ("isFree", VBool true);
       ("grantSource", VStr "ADMIN")].

Definition alice : JsObject :=
  obj [("id", VStr "u1");
       ("name", VStr "Alice");
       ("email", VStr "alice@example.com");
       ("role", VStr "STUDENT");
       ("credits", VNum 120);
       ("isPremium", VBool true);
       ("isLocked", VBool false);
       ("subscriptionTier", VStr "MONTHLY");
       ("subscriptionEndDate", VStr "2024-01-04T18:13:20.000Z");
       ("subscriptionHistory", VArr [VObj old_grant]);
       ("lastActiveTime", VStr "2024-02-27T02:13:20.000Z")].

(** Last active exactly one month before [t0]. *)
Definition bob : JsObject :=
  obj [("id", VStr "u2");
       ("name", VStr "Bob");
       ("email", VStr "bob@example.com");
       ("role", VStr "STUDENT");
       ("credits", VNum 5);
       ("isPremium", VBool false);
       ("lastActiveTime", VStr "2024-02-05T17:00:00.000Z")].

(** Last active one millisecond before that. *)
Definition carol : JsObject :=
  obj [("id", VStr "u3");
       ("name", VStr "Carol");
       ("email", VStr "carol@example.com");
       ("role", VStr "ADMIN");
       ("credits", VNum 0);
       ("lastActiveTime", VStr "2024-02-05T16:59:59.999Z")].

(** Never active. *)
Definition dave : JsObject :=
  obj [("id", VStr "u4"); ("name", VStr "Dave"); ("credits", VNum 7)].

Definition settings0 : JsObject :=
  obj [("noticeText", VStr "Welcome"); ("isAiEnabled", VBool true)].

Definition world0 : World :=
  mkWorld [("u1", alice); ("u2", bob); ("u3", carol); ("u4", dave)]
          [obj [("id", VStr "chat-2")]; obj [("id", VStr "chat-1")]]
          (list_to_map [("u1", alice); ("u2", bob)])
          (Some settings0)
          [] 0.

End Sample.

(* ===================================================================== *)
(** ** Further vocabulary: the settings singleton and the user records *)
(* ===================================================================== *)

(** The world after a handler has read the settings singleton and handed
    [settings] to [saveSystemSettings]. *)
Definition settings_saved (settings : JsObject) (w : World) : World :=
  mkWorld (fs_users w) (fs_logs w) (live_users w) (Some settings)
          (trace w ++ [GetLiveSettings; SaveSystemSettings settings])
          (clock_reads w).

(** The [newTest] literal of [createWeeklyTest], as a function of the two
    clock readings it takes. *)
Definition weekly_test (name subject : string) (questionCount stamp createdAt : Z)
    : JsObject :=
  obj [("id", VStr ("test-" +:+ pretty stamp));
       ("name", VStr name);
       ("description", VStr ("Subject: " +:+ subject));
       ("isActive", VBool true);
       ("classLevel", VStr "10");
       ("questions", VArr []);
       ("totalQuestions", VNum questionCount);
       ("passingScore", VNum 40);
       ("createdAt", VStr (JsDate.isoString createdAt));
       ("durationMinutes", VNum 60);
       ("selectedSubjects", VArr [VStr subject])].

(** The [newMsg] literal of [sendInboxMessage]. *)
Definition inbox_message (text : string) (stamp date : Z) : JsObject :=
  obj [("id", VStr ("msg-" +:+ pretty stamp));
       ("text", VStr text);
       ("date", VStr (JsDate.isoString date));
       ("read", VBool false);
       ("type", VStr "TEXT")].

(** The property names [grantSubscription] sets on the user. *)
Definition grant_fields : gset string :=
  {[ "subscriptionTier"; "subscriptionLevel"; "subscriptionEndDate";
     "isPremium"; "subscriptionHistory"; "grantedByAdmin" ]}.

(** The plans for which [grantSubscription] computes an end date. *)
Definition dated_plan (plan : string) : bool :=
  String.eqb plan "WEEKLY" || String.eqb plan "MONTHLY" || String.eqb plan "YEARLY".

(** The ids of the documents of the "users" collection. *)
Definition doc_ids (w : World) : list string := List.map fst (fs_users w).

(** The number of days of month [month] (0..11) of [year]. *)
Definition days_in_month (year month : Z) : Z :=
  let leap := if JsDate.isLeap year then 1 else 0 in
  if month =? 11 then 31
  else JsDate.monthStart (month + 1) leap - JsDate.monthStart month leap.

(* ===================================================================== *)
(** ** Text to speech ([src/utils/textToSpeech.ts]) *)
(* ===================================================================== *)

Module Speech.

(** What the module reads of a [SpeechSynthesisVoice]. *)
Record Voice : Type := mkVoice {
  voice_name : string;
  voice_lang : string
}.

(** [s.includes(sub)].  Strings are byte strings; every needle the module
    searches for is ASCII, for which the test on bytes is the test on code
    units. *)
Fixpoint includes (s sub : string) : bool :=
  String.prefix sub s
  || match s with
     | EmptyString => false
     | String _ r => includes r sub
     end.

(** The object [getCategorizedVoices] resolves to. *)
Record Categories : Type := mkCategories {
  hindi : list Voice;
  indianEnglish : list Voice;
  others : list Voice
}.

(** [v.k] on a value that [JSON.parse] returned: reading a property of
    [null] or [undefined] throws a TypeError, a primitive has no property
    of the names read here. *)
Definition prop (v : JsValue) (k : string) : Result JsValue :=
  match v with
  | VObj o => Ok (get_field o k)
  | VUndefined | VNull => Throw ("Cannot read properties of " +:+ ToString v)
  | VBool _ | VNum _ | VStr _ | VArr _ => Ok VUndefined
  end.

Definition and_then {A B} (r : Result A) (k : A -> Result B) : Result B :=
  match r with
  | Ok a => k a
  | Throw e => Throw e
  end.

(** [a || b] on the results of [find]. *)
Definition or_else (a b : option Voice) : option Voice :=
  match a with
  | Some v => Some v
  | None => b
  end.

(** [v.name === preferredName]. *)
Definition name_is (preferredName : JsValue) (v : Voice) : bool :=
  match preferredName with
  | VStr n => String.eqb (voice_name v) n
  | _ => false
  end.

(** A character of the Devanagari block, U+0900 to U+097F. *)
Definition devanagari (c : N) : bool := ((2304 <=? c) && (c <=? 2431))%N.

(** [window.speechSynthesis.cancel()] and [.speak(u)] on the queue of
    utterances. *)
Definition cancel {U} (queue : list U) : list U := [].
Definition speak {U} (u : U) (queue : list U) : list U := queue ++ [u].

Section Engine.

(** [String.prototype.toLowerCase] and [JSON.parse] of the engine, and the
    numbers that rates and pitches are, with the number 1.0. *)
Variable toLowerCase : string -> string.
Variable JSON_parse : string -> Result JsValue.
Variable Rate : Type.
Variable rate_one : Rate.

(** [getCategorizedVoices], on the voices [getAvailableVoices] resolves
    to. *)
Definition getCategorizedVoices (voices : list Voice) : Categories :=
  mkCategories
    (List.filter (fun v => includes (voice_lang v) "hi"
                           || includes (toLowerCase (voice_name v)) "hindi") voices)
    (List.filter (fun v => String.eqb (voice_lang v) "en-IN"
                           || (includes (voice_lang v) "en"
                               && includes (toLowerCase (voice_name v)) "india")) voices)
    (List.filter (fun v => negb (includes (voice_lang v) "hi")
                           && negb (includes (toLowerCase (voice_name v)) "hindi")
                           && negb (String.eqb (voice_lang v) "en-IN")
                           && negb (includes (toLowerCase (voice_name v)) "india")) voices).

(** The name stored under 'nst_system_settings'; [storedSettings] is what
    [localStorage.getItem] returned, [None] for [null]. *)
Definition stored_preference (storedSettings : option string) (lang : string)
    : Result JsValue :=
  match storedSettings with
  | None => Ok (VStr "")
  | Some s =>
      if String.eqb s "" then Ok (VStr "")
      else
        and_then (JSON_parse s) (fun settings =>
        and_then (prop settings "voiceConfig") (fun voiceConfig =>
          if truthy voiceConfig
          then if String.eqb lang "hi"
               then prop voiceConfig "defaultHindiVoice"
               else prop voiceConfig "defaultEnglishVoice"
          else Ok (VStr "")))
  end.

(** The fallback heuristics of [getPreferredVoice]. *)
Definition fallback_voice (voices : list Voice) (lang : string) : option Voice :=
  if String.eqb lang "hi" then
    or_else (List.find (fun v => includes (voice_name v) "Google"
                                 && includes (voice_name v) "Hindi") voices)
      (or_else (List.find (fun v => String.eqb (voice_lang v) "hi-IN") voices)
               (List.find (fun v => includes (voice_lang v) "hi") voices))
  else
    or_else (List.find (fun v => includes (voice_name v) "Google"
                                 && includes (voice_name v) "India") voices)
      (or_else (List.find (fun v => String.eqb (voice_lang v) "en-IN") voices)
         (or_else (List.find (fun v => includes (voice_name v) "India") voices)
                  (List.find (fun v => String.eqb (voice_lang v) "en-US") voices))).

(** [getPreferredVoice(lang)]: [None] is [undefined]. *)
Definition getPreferredVoice (voices : list Voice) (storedSettings : option string)
    (lang : string) : Result (option Voice) :=
  and_then (stored_preference storedSettings lang) (fun preferredName =>
    let found :=
      if truthy preferredName then List.find (name_is preferredName) voices else None in
    match found with
    | Some v => Ok (Some v)
    | None => Ok (fallback_voice voices lang)
    end).

(** A [SpeechSynthesisUtterance]; the text is its UTF-16 code units. *)
Record Utterance : Type := mkUtterance {
  utt_text : list N;
  utt_voice : option Voice;
  utt_lang : string;
  utt_rate : Rate;
  utt_pitch : Rate
}.

(** [speakText(text, voice, rate, lang)] on the queue of the synthesizer.
    [supported] is ['speechSynthesis' in window]; an omitted [rate] is 1.0;
    [lang] is not used. *)
Definition speakText (supported : bool) (voices : list Voice)
    (storedSettings : option string) (text : list N) (voice : option Voice)
    (rate : option Rate) (lang : option string) (queue : list Utterance)
    : Result unit * list Utterance :=
  if negb supported then (Ok tt, queue)
  else
    let queue := cancel queue in
    let isHindi := existsb devanagari text in
    let targetLang := if isHindi then "hi" else "en" in
    let selected :=
      match voice with
      | Some v => Ok (Some v)
      | None => getPreferredVoice voices storedSettings targetLang
      end in
    match selected with
    | Throw e => (Throw e, queue)
    | Ok selectedVoice =>
        let utterance :=
          match selectedVoice with
          | Some v => mkUtterance text (Some v) (voice_lang v)
                        (default rate_one rate) rate_one
          | None => mkUtterance text None (if isHindi then "hi-IN" else "en-US")
                      (default rate_one rate) rate_one
          end in
        (Ok tt, speak utterance queue)
    end.

Definition stopSpeech (supported : bool) (queue : list Utterance) : list Utterance :=
  if supported then cancel queue else queue.

End Engine.

Arguments mkUtterance {Rate} utt_text utt_voice utt_lang utt_rate utt_pitch.
Arguments utt_text {Rate} u.
Arguments utt_voice {Rate} u.
Arguments utt_lang {Rate} u.
Arguments utt_rate {Rate} u.
Arguments utt_pitch {Rate} u.

(** Lower-casing of the ASCII letters, for the samples. *)
Definition ascii_lower (c : Ascii.ascii) : Ascii.ascii :=
  let n := Ascii.nat_of_ascii c in
  if ((65 <=? n) && (n <=? 90))%nat then Ascii.ascii_of_nat (n + 32) else c.

Fixpoint lower (s : string) : string :=
  match s with
  | EmptyString => EmptyString
  | String c r => String (ascii_lower c) (lower r)
  end.

End Speech.

(* ===================================================================== *)
(** ** The student assistant's usage gate ([handleSend]) *)
(* ===================================================================== *)

Module AiAssistant.

(** [v === s] for a string [s]. *)
Definition str_is (v : JsValue) (s : string) : bool :=
  match v with
  | VStr x => String.eqb x s
  | _ => false
  end.

(** [v.k] on a truthy value. *)
Definition field_of (v : JsValue) (k : string) : JsValue :=
  match v with
  | VObj o => get_field o k
  | _ => VUndefined
  end.

(** The letter T. *)
Definition letter_T : Ascii.ascii := Ascii.ascii_of_nat 84.

(** [new Date().toISOString().split('T')[0]]. *)
Fixpoint before_T (s : string) : string :=
  match s with
  | EmptyString => EmptyString
  | String c r => if Ascii.eqb c letter_T then EmptyString else String c (before_T r)
  end.

Definition today_of (now : Z) : string := before_T (JsDate.isoString now).

(** [currentCount]: [user.dailyAiCount || 0], reset to 0 when the stored
    date is not today's. *)
Definition current_count (user : JsObject) (today : string) : JsValue :=
  let currentCount := js_or (get_field user "dailyAiCount") (VNum 0) in
  if negb (str_is (get_field user "dailyAiDate") today) then VNum 0 else currentCount.

(** [limit]: 5, 50 or 99999 by tier, overridden from the settings when they
    carry [aiLimits]; [x || d] keeps whatever truthy value is stored. *)
Definition limit_of (user : JsObject) (settings : option JsObject) : JsValue :=
  let limit :=
    if truthy (get_field user "isPremium")
    then if str_is (get_field user "subscriptionLevel") "ULTRA"
         then VNum 99999 else VNum 50
    else VNum 5 in
  match settings with
  | None => limit
  | Some s =>
      let aiLimits := get_field s "aiLimits" in
      if truthy aiLimits then
        if negb (truthy (get_field user "isPremium"))
        then js_or (field_of aiLimits "free") (VNum 5)
        else if str_is (get_field user "subscriptionLevel") "BASIC"
             then js_or (field_of aiLimits "basic") (VNum 50)
             else js_or (field_of aiLimits "ultra") (VNum 99999)
      else limit
  end.

(** The default of a tier when the settings carry [aiLimits]. *)
Definition tier_default (user : JsObject) : Z :=
  if negb (truthy (get_field user "isPremium")) then 5
  else if str_is (get_field user "subscriptionLevel") "BASIC" then 50
  else 99999.

(** ToNumber where the embedding has its result: on a number, a boolean,
    [null], and a string of one to fifteen decimal digits, which denotes
    an integer that a Number holds exactly.  On the other values (the
    other strings, [undefined], arrays and objects) it gives nothing. *)
Definition digit_of (c : Ascii.ascii) : option Z :=
  let n := Z.of_nat (Ascii.nat_of_ascii c) in
  if (48 <=? n) && (n <=? 57) then Some (n - 48) else None.

Fixpoint digits_value (acc : Z) (s : string) : option Z :=
  match s with
  | EmptyString => Some acc
  | String c r =>
      match digit_of c with
      | Some d => digits_value (10 * acc + d) r
      | None => None
      end
  end.

Definition ToNumber (v : JsValue) : option Z :=
  match v with
  | VNum z => Some z
  | VBool b => Some (if b then 1 else 0)
  | VNull => Some 0
  | VStr s =>
      if (Nat.leb 1 (String.length s)) && (Nat.leb (String.length s) 15)
      then digits_value 0 s else None
  | _ => None
  end.

(** [a >= b]: on two strings the comparison is that of strings, which the
    embedding leaves out; otherwise both sides go through ToNumber. *)
Definition js_ge (a b : JsValue) : option bool :=
  match a, b with
  | VStr _, VStr _ => None
  | _, _ =>
      match ToNumber a, ToNumber b with
      | Some x, Some y => Some (y <=? x)
      | _, _ => None
      end
  end.

(** [a + 1]: a string is extended by the character 1, the other values
    are added as numbers. *)
Definition js_plus_one (a : JsValue) : option JsValue :=
  match a with
  | VStr s => Some (VStr (s +:+ "1"))
  | _ => option_map (fun x => VNum (x + 1)) (ToNumber a)
  end.

(** What [handleSend] decides before it calls the model: it returns at
    once, answers that the tutor is disabled, answers that the limit is
    reached, or goes on, handing [updatedUser] to [saveUserToLive]. *)
Inductive Decision : Type :=
| Ignored
| TutorDisabled
| LimitReached (limit : JsValue)
| Proceed (updatedUser : JsObject).

(** [settings?.isAiEnabled === false]. *)
Definition ai_disabled (settings : option JsObject) : bool :=
  match settings with
  | Some s => match get_field s "isAiEnabled" with
              | VBool false => true
              | _ => false
              end
  | None => false
  end.

(** [handleSend] up to the call of the model; [blank] is [!input.trim()].
    The result is [None] where [currentCount >= limit] or
    [currentCount + 1] falls outside [js_ge] and [js_plus_one]. *)
Definition handleSend (blank isLoading : bool) (settings : option JsObject)
    (user : JsObject) (now : Z) : option Decision :=
  if blank || isLoading then Some Ignored
  else if ai_disabled settings then Some TutorDisabled
  else
    let today := today_of now in
    let currentCount := current_count user today in
    let limit := limit_of user settings in
    match js_ge currentCount limit with
    | Some true => Some (LimitReached limit)
    | Some false =>
        match js_plus_one currentCount with
        | Some next =>
            Some (Proceed (spread user (obj [("dailyAiDate", VStr today);
                                             ("dailyAiCount", next)])))
        | None => None
        end
    | None => None
    end.

End AiAssistant.

(* ===================================================================== *)
(** ** The banner carousel *)
(* ===================================================================== *)

Module Carousel.

(** [banners.filter(b => b)]. *)
Definition validBanners (banners : list JsValue) : list JsValue :=
  List.filter truthy banners.

(** The index [handleNext] sets; the button that calls it is rendered only
    when there is a valid banner. *)
Definition handleNext (banners : list JsValue) (prev : nat) : nat :=
  ((prev + 1) mod length (validBanners banners))%nat.

(** What the component shows: [None] when it renders [null], otherwise the
    content of the banner slot, [validBanners[currentIndex]], itself
    [None] when the index is past the end. *)
Definition shown (banners : option (list JsValue)) (currentIndex : nat)
    : option (option JsValue) :=
  match banners with
  | None => None
  | Some bs =>
      if Nat.eqb (length bs) 0 then None
      else if Nat.eqb (length (validBanners bs)) 0 then None
      else Some (nth_error (validBanners bs) currentIndex)
  end.

End Carousel.

(* ===================================================================== *)
(** ** More sample data *)
(* ===================================================================== *)

Module SampleMore.

(** The second store call fails. *)
Definition env_second_down : Env :=
  mkEnv (fun _ => Sample.t0)
        (fun n => if Nat.eqb n 1 then Some "permission denied" else None)
        (fun _ => 0) (fun _ => 0) Sample.date_of.

(** A user whose inbox came back from the realtime tree as an object. *)
Definition erin : JsObject :=
  obj [("id", VStr "u5"); ("name", VStr "Erin");
       ("inbox", VObj (obj [("0", VStr "a"); ("5", VStr "b")]));
       ("subscriptionHistory", VNum 1)].

Definition world1 : World :=
  mkWorld [("u1", Sample.alice); ("u5", erin)]
          [obj [("id", VStr "chat-3")]; obj [("id", VStr "chat-2")];
           obj [("id", VStr "chat-1")]]
          (list_to_map [("u1", Sample.alice); ("u5", erin)])
          (Some (obj [("noticeText", VStr "Welcome");
                      ("weeklyTests", VArr [VObj (obj [("id", VStr "test-1")])])]))
          [] 0.

(** The same stores without a settings record. *)
Definition world_no_settings : World :=
  mkWorld (fs_users world1) (fs_logs world1) (live_users world1) None [] 0.

(** 2024-03-31T12:00:00.000Z, and the host standing at it. *)
Definition t_month_end : Z := 1711886400000.

Definition date_of (v : JsValue) : option Z :=
  match v with
  | VNum z => Some z
  | VStr s =>
      List.find (fun t => String.eqb (JsDate.isoString t) s)
        [t_month_end; 1709294400000; 1709380800000]
  | _ => None
  end.

Definition env_month_end : Env :=
  mkEnv (fun _ => t_month_end) (fun _ => None) (fun _ => 0) (fun _ => 0) date_of.

(** Last active on 2024-03-01 at noon, thirty days before [t_month_end]. *)
Definition frank : JsObject :=
  obj [("id", VStr "u6"); ("name", VStr "Frank");
       ("lastActiveTime", VStr "2024-03-01T12:00:00.000Z")].

Definition world_month_end : World :=
  mkWorld [("u6", frank)] [] (list_to_map [("u6", frank)]) None [] 0.

(** Settings whose limit for free users is stored as the string 0. *)
Definition settings_free_string : JsObject :=
  obj [("aiLimits", VObj (obj [("free", VStr "0")]))].

Definition voices : list Speech.Voice :=
  [Speech.mkVoice "Microsoft David" "en-US";
   Speech.mkVoice "Google Hindi" "hi-IN";
   Speech.mkVoice "Tamil India" "ta-IN";
   Speech.mkVoice "Rishi" "en-IN"].

(** A JSON parser for the two stored strings of the samples. *)
Definition parse (s : string) : Result JsValue :=
  if String.eqb s "{voiceConfig:Rishi}"
  then Ok (VObj (obj [("voiceConfig",
                       VObj (obj [("defaultEnglishVoice", VStr "Rishi");
                                  ("defaultHindiVoice", VStr "Rishi")]))]))
  else Throw "Unexpected token".

End SampleMore.

(* ===================================================================== *)
(** ** Time values: checks and calendar lemmas *)
(* ===================================================================== *)

Example iso_epoch : JsDate.isoString 0 = "1970-01-01T00:00:00.000Z".
Proof. vm_compute. reflexivity. Qed.

Example iso_2024 : JsDate.isoString 1709658000123 = "2024-03-05T17:00:00.123Z".
Proof. vm_compute. reflexivity. Qed.

Example iso_leap_day : JsDate.isoString 1709251199999 = "2024-02-29T23:59:59.999Z".
Proof. vm_compute. reflexivity. Qed.

Example iso_before_epoch : JsDate.isoString (-1) = "1969-12-31T23:59:59.999Z".
Proof. vm_compute. reflexivity. Qed.

Example iso_year_end : JsDate.isoString 1735689599999 = "2024-12-31T23:59:59.999Z".
Proof. vm_compute. reflexivity. Qed.

Module JsDateFacts.
Import JsDate.

(** [YearFromDay] meets its ECMAScript definition: the year it returns
    starts on or before the day, and the next year starts after it. *)
Lemma YearFromDay_spec (d : Z) :
  DayFromYear (YearFromDay d) <= d < DayFromYear (YearFromDay d + 1).
Proof.
  unfold YearFromDay, DayFromYear.
  repeat match goal with
         | |- context [if ?b then _ else _] =>
             let E := fresh "E" in destruct b eqn:E
         end;
    rewrite ?Z.ltb_lt, ?Z.ltb_ge, ?Z.leb_le, ?Z.leb_gt in *;
    Z.to_euclidean_division_equations; lia.
Qed.

Lemma MonthFromTime_range (t : Z) : 0 <= MonthFromTime t < 12.
Proof.
  unfold MonthFromTime.
  repeat match goal with
         | |- context [if ?b then _ else _] => destruct b
         end; lia.
Qed.

(** Moving the day of the month by [k] within the month of [t] moves the
    day number by [k]. *)
Lemma MakeDay_shift (t k : Z) :
  MakeDay (YearFromTime t) (MonthFromTime t) (DateFromTime t + k) = Day t + k.
Proof.
  pose proof (MonthFromTime_range t) as Hm.
  unfold MakeDay, DateFromTime, DayWithinYear, InLeapYear.
  rewrite Z.div_small, Z.mod_small by lia.
  rewrite Z.add_0_r. lia.
Qed.

Lemma MakeDate_shift (t k : Z) :
  MakeDate (Day t + k) (TimeWithinDay t) = t + k * msPerDay.
Proof.
  unfold MakeDate, Day, TimeWithinDay, msPerDay.
  Z.to_euclidean_division_equations; lia.
Qed.

(** A year has 365 days, 366 when it is a leap year. *)
Lemma DayFromYear_succ (y : Z) :
  DayFromYear (y + 1) = DayFromYear y + 365 + (if isLeap y then 1 else 0).
Proof.
  unfold DayFromYear, isLeap.
  destruct (y mod 4 =? 0) eqn:E4, (y mod 100 =? 0) eqn:E100, (y mod 400 =? 0) eqn:E400;
    cbn [andb orb negb];
    rewrite ?Z.eqb_eq, ?Z.eqb_neq in *;
    Z.to_euclidean_division_equations; lia.
Qed.

Lemma DayFromYear_mono (y1 y2 : Z) : y1 < y2 -> DayFromYear y1 < DayFromYear y2.
Proof.
  unfold DayFromYear. intros H. Z.to_euclidean_division_equations; lia.
Qed.

Lemma YearFromDay_unique (d y : Z) :
  DayFromYear y <= d < DayFromYear (y + 1) -> YearFromDay d = y.
Proof.
  intros H. pose proof (YearFromDay_spec d) as Hs.
  destruct (Z.lt_trichotomy (YearFromDay d) y) as [Hlt | [Heq | Hgt]]; [| exact Heq |].
  - assert (YearFromDay d + 1 <= y) as Hle by lia.
    apply Zle_lt_or_eq in Hle as [Hl | He].
    + pose proof (DayFromYear_mono _ _ Hl). lia.
    + rewrite He in Hs. lia.
  - assert (y + 1 <= YearFromDay d) as Hle by lia.
    apply Zle_lt_or_eq in Hle as [Hl | He].
    + pose proof (DayFromYear_mono _ _ Hl). lia.
    + rewrite <- He in Hs. lia.
Qed.

(** [MakeDay] meets its ECMAScript definition: the day it finds for the
    first of a month lies in that year and month and is its day 1. *)
Lemma MakeDay_first_of_month (year month : Z) :
  0 <= month < 12 ->
  let t := MakeDate (MakeDay year month 1) 0 in
  YearFromTime t = year /\ MonthFromTime t = month /\ DateFromTime t = 1.
Proof.
  intros Hm t.
  assert (Hday : Day t = DayFromYear year + monthStart month (if isLeap year then 1 else 0)).
  { unfold t, MakeDate, MakeDay, Day, msPerDay.
    rewrite (Z.div_small month 12), (Z.mod_small month 12) by lia.
    rewrite !Z.add_0_r, Z.div_mul by lia. lia. }
  assert (Hy : YearFromTime t = year).
  { unfold YearFromTime. apply YearFromDay_unique. rewrite Hday, DayFromYear_succ.
    unfold monthStart.
    repeat match goal with |- context [if ?b then _ else _] => destruct b end; lia. }
  assert (Hmo : MonthFromTime t = month).
  { unfold MonthFromTime, DayWithinYear, InLeapYear. rewrite Hy, Hday.
    unfold monthStart. destruct (isLeap year).
    all: repeat match goal with
                | |- context [?a =? ?b] => destruct (Z.eqb_spec a b); try lia
                end.
    all: repeat match goal with
                | |- context [?a <? ?b] => destruct (Z.ltb_spec a b); try lia
                end. }
  split; [exact Hy |]. split; [exact Hmo |].
  unfold DateFromTime, DayWithinYear, InLeapYear. rewrite Hmo, Hy, Hday. lia.
Qed.
End JsDateFacts.

(** [d.setDate(d.getDate() + k)] moves the local time by [k] whole days. *)
Lemma setDate_shift (env : Env) (t k : Z) :
  setDate env t (getDate env t + k)
  = JsDate.TimeClip (UTC env (LocalTime env t + k * JsDate.msPerDay)).
Proof.
  unfold setDate, getDate.
  rewrite JsDateFacts.MakeDay_shift, JsDateFacts.MakeDate_shift. reflexivity.
Qed.

(* ===================================================================== *)
(** ** Store calls *)
(* ===================================================================== *)

Section StoreCalls.

Context (env : Env).

Lemma store_call_ok {A} (op : StoreOp) (effect : World -> A * World) (w : World) :
  fault env (length (trace w)) = None ->
  store_call env op effect w = (Ok (effect (log_op op w)).1, (effect (log_op op w)).2).
Proof.
  intros H. unfold store_call. rewrite H. destruct (effect _); reflexivity.
Qed.

Lemma store_call_fault {A} (op : StoreOp) (effect : World -> A * World)
    (w : World) (msg : string) :
  fault env (length (trace w)) = Some msg ->
  store_call env op effect w = (Throw msg, log_op op w).
Proof. intros H. unfold store_call. rewrite H. reflexivity. Qed.

Lemma trace_log_op (op : StoreOp) (w : World) :
  length (trace (log_op op w)) = S (length (trace w)).
Proof. unfold log_op; simpl. rewrite length_app; simpl. lia. Qed.

End StoreCalls.

(* ===================================================================== *)
(** ** The catalog and the registry *)
(* ===================================================================== *)

(** C10.  Every operation name declared in [adminTools] is a key of
    [ActionRegistry]; the converse fails, because the registry's
    [getRecentLogs] has no descriptor in [adminTools]. *)
Theorem catalog_within_registry :
  (forall name, In name catalog_names -> In name registry_keys)
  /\ In "getRecentLogs" registry_keys
  /\ ~ In "getRecentLogs" catalog_names.
Proof.
  split; [|split].
  - intros name H. unfold catalog_names in H; simpl in H.
    unfold registry_keys; simpl.
    repeat (destruct H as [<- | H]; [tauto |]). destruct H.
  - unfold registry_keys; simpl. tauto.
  - unfold catalog_names; simpl. intros H.
    repeat (destruct H as [H | H]; [discriminate H |]). destruct H.
Qed.

(** The registry holds exactly one function more than the catalog
    advertises. *)
Lemma registry_only_extra (name : string) :
  In name registry_keys -> In name catalog_names \/ name = "getRecentLogs".
Proof.
  unfold registry_keys, catalog_names; simpl.
  intros H. repeat (destruct H as [<- | H]; [tauto |]). destruct H.
Qed.

(* ===================================================================== *)
(** ** Locking and unlocking *)
(* ===================================================================== *)

(** C9.  [banUser] is [updateUser] with [{ isLocked: true }]: same world,
    same result, whatever the reason; [unbanUser] is [updateUser] with
    [{ isLocked: false }]. *)
Theorem banUser_is_updateUser (env : Env) (userId reason : string) (w : World) :
  banUser env userId reason w = updateUser env userId {["isLocked" := VBool true]} w
  /\ (forall reason', banUser env userId reason' w = banUser env userId reason w)
  /\ unbanUser env userId w = updateUser env userId {["isLocked" := VBool false]} w.
Proof.
  unfold banUser, unbanUser, obj. simpl.
  rewrite !insert_empty. auto.
Qed.

(* ===================================================================== *)
(** ** Swallowed read failures *)
(* ===================================================================== *)

(** C8.  When the store read fails, [scanUsers] and [getRecentLogs] return
    the empty sequence and throw nothing. *)
Theorem failed_reads_give_empty (env : Env) (w : World) (msg : string) :
  fault env (length (trace w)) = Some msg ->
  (forall filter, (scanUsers env filter w).1 = Ok [])
  /\ (forall limit, (getRecentLogs env limit w).1 = Ok []).
Proof.
  intros Hf. split.
  - intros filter.
    unfold scanUsers, bind, getAllUsers, try_catch, getDocs_users.
    rewrite (store_call_fault env _ _ _ msg Hf). unfold ret. simpl.
    destruct (String.eqb filter "INACTIVE"); simpl;
      destruct (String.eqb filter "FREE"), (String.eqb filter "PREMIUM"); reflexivity.
  - intros limit.
    unfold getRecentLogs, try_catch, getDocs_logs.
    destruct (default 20 limit <=? 0).
    + reflexivity.
    + rewrite (store_call_fault env _ _ _ msg Hf). reflexivity.
Qed.

Lemma failed_reads_give_empty_witness :
  fault Sample.env_down (length (trace Sample.world0)) = Some "unavailable"
  /\ (scanUsers Sample.env_down "INACTIVE" Sample.world0).1 = Ok []
  /\ (getRecentLogs Sample.env_down None Sample.world0).1 = Ok [].
Proof.
  split; [reflexivity |].
  pose proof (failed_reads_give_empty Sample.env_down Sample.world0 "unavailable"
                eq_refl) as [Hs Hl].
  split; [apply Hs | apply Hl].
Defined.

(* ===================================================================== *)
(** ** deleteUser *)
(* ===================================================================== *)

Lemma deleteUser_ok (env : Env) (userId : string) (w : World) :
  fault env (length (trace w)) = None ->
  fault env (S (length (trace w))) = None ->
  deleteUser env userId w
  = (Ok ("User " +:+ userId +:+ " deleted successfully from Firestore and RTDB."),
     deleted userId w).
Proof.
  intros H0 H1.
  unfold deleteUser, try_catch, bind, deleteDoc_user, remove_live_user.
  rewrite (store_call_ok env _ _ _ H0). cbn [fst snd].
  rewrite store_call_ok by (unfold set_fs_users; simpl; rewrite length_app; simpl;
                            replace (length (trace w) + 1)%nat with (S (length (trace w))) by lia;
                            exact H1).
  unfold ret, deleted, set_live_users, set_fs_users, log_op; simpl.
  rewrite <- app_assoc. reflexivity.
Qed.

(** C4, as the code has it.  The durable document is deleted first and the
    live record is removed only after that deletion has succeeded: when the
    durable deletion throws, the live removal is not attempted, nothing is
    deleted, and the failure is rethrown under the handler's own message;
    when it succeeds, the live removal is attempted next. *)
Theorem deleteUser_stops_at_first_failure (env : Env) (userId : string) (w : World) :
  (forall msg,
      fault env (length (trace w)) = Some msg ->
      deleteUser env userId w
      = (Throw ("Failed to delete user " +:+ userId +:+ ": " +:+ msg),
         log_op (DeleteDoc userId) w))
  /\ (fault env (length (trace w)) = None ->
      trace (deleteUser env userId w).2
      = trace w ++ [DeleteDoc userId; RemoveLiveUser userId]).
Proof.
  split.
  - intros msg Hf.
    unfold deleteUser, try_catch, bind, deleteDoc_user.
    rewrite (store_call_fault env _ _ _ msg Hf). reflexivity.
  - intros H0.
    unfold deleteUser, try_catch, bind, deleteDoc_user, remove_live_user.
    rewrite (store_call_ok env _ _ _ H0). cbn [fst snd].
    unfold store_call, ret, set_live_users, set_fs_users, log_op; simpl.
    match goal with
    | |- context [fault env ?n] => destruct (fault env n)
    end; simpl; rewrite <- app_assoc; reflexivity.
Qed.

Lemma deleteUser_stops_at_first_failure_witness :
  deleteUser Sample.env_down "u1" Sample.world0
  = (Throw "Failed to delete user u1: unavailable",
     log_op (DeleteDoc "u1") Sample.world0)
  /\ trace (deleteUser Sample.env_utc "u1" Sample.world0).2
     = [DeleteDoc "u1"; RemoveLiveUser "u1"].
Proof.
  split.
  - apply (proj1 (deleteUser_stops_at_first_failure Sample.env_down "u1" Sample.world0)
             "unavailable" eq_refl).
  - apply (proj2 (deleteUser_stops_at_first_failure Sample.env_utc "u1" Sample.world0)
             eq_refl).
Defined.

(** C4, as stated, fails: with the durable store down, [deleteUser "u1"]
    throws after the one call [DeleteDoc "u1"]; the removal of the live
    record is never issued and the live record is still there. *)
Lemma deleteUser_best_effort_counterexample :
  let r := deleteUser Sample.env_down "u1" Sample.world0 in
  r.1 = Throw "Failed to delete user u1: unavailable"
  /\ trace r.2 = [DeleteDoc "u1"]
  /\ ~ In (RemoveLiveUser "u1") (trace r.2)
  /\ live_users r.2 !! "u1" = Some Sample.alice.
Proof.
  cbv zeta. repeat split.
  intros [H | []]. discriminate H.
Qed.

(* ===================================================================== *)
(** ** updateUser *)
(* ===================================================================== *)

Lemma get_live_user_ok (env : Env) (userId : string) (w : World) :
  fault env (length (trace w)) = None ->
  get_live_user env userId w = (Ok (live_users w !! userId), log_op (GetLiveUser userId) w).
Proof. intros H. unfold get_live_user. rewrite store_call_ok by exact H. reflexivity. Qed.

Lemma updateUser_absent (env : Env) (userId : string) (updates : JsObject) (w : World) :
  live_users w !! userId = None ->
  fault env (length (trace w)) = None ->
  updateUser env userId updates w
  = (Throw "Failed to update user: User not found", log_op (GetLiveUser userId) w).
Proof.
  intros Hu Hf. unfold updateUser, try_catch, bind.
  rewrite get_live_user_ok by exact Hf. rewrite Hu. reflexivity.
Qed.

Lemma updateUser_ok (env : Env) (userId : string) (updates current : JsObject) (w : World) :
  live_users w !! userId = Some current ->
  fault env (length (trace w)) = None ->
  fault env (S (length (trace w))) = None ->
  updateUser env userId updates w
  = (Ok ("User " +:+ userId +:+ " updated."), updated userId (spread current updates) w).
Proof.
  intros Hu H0 H1. unfold updateUser, try_catch, bind.
  rewrite get_live_user_ok by exact H0. rewrite Hu.
  unfold saveUserToLive.
  rewrite store_call_ok by (rewrite trace_log_op; exact H1).
  unfold ret, updated, set_live_users, log_op; simpl.
  rewrite <- app_assoc. reflexivity.
Qed.

(** C5.  On an existing user [updateUser] hands back to the store the
    shallow merge of the supplied fields over the live record: a field the
    mapping names has exactly the supplied value, any other field keeps
    its stored value.  With [{ credits: 500 }] the record written is the
    stored one with [credits] set to 500. *)
Theorem updateUser_shallow_merge (env : Env) (userId : string)
    (updates current : JsObject) (w : World) :
  live_users w !! userId = Some current ->
  fault env (length (trace w)) = None ->
  fault env (S (length (trace w))) = None ->
  exists merged,
    (updateUser env userId updates w).1 = Ok ("User " +:+ userId +:+ " updated.")
    /\ trace (updateUser env userId updates w).2
       = trace w ++ [GetLiveUser userId; SaveUserToLive merged]
    /\ (forall k v, updates !! k = Some v -> merged !! k = Some v)
    /\ (forall k, updates !! k = None -> merged !! k = current !! k)
    /\ (updates = {["credits" := VNum 500]} ->
        merged = <["credits" := VNum 500]> current
        /\ merged !! "credits" = Some (VNum 500)
        /\ forall k, k <> "credits" -> merged !! k = current !! k).
Proof.
  intros Hu H0 H1. exists (spread current updates).
  rewrite (updateUser_ok env userId updates current w Hu H0 H1). cbn [fst snd].
  split; [reflexivity |]. split; [reflexivity |].
  unfold spread. split; [| split].
  - intros k v Hk. apply lookup_union_Some_l. exact Hk.
  - intros k Hk. apply lookup_union_r. exact Hk.
  - intros ->. rewrite <- insert_union_singleton_l.
    split; [reflexivity |]. split.
    + apply lookup_insert_eq.
    + intros k Hk. apply lookup_insert_ne. congruence.
Qed.

Lemma updateUser_shallow_merge_witness :
  exists merged,
    (updateUser Sample.env_utc "u1" {["credits" := VNum 500]} Sample.world0).1
    = Ok "User u1 updated."
    /\ trace (updateUser Sample.env_utc "u1" {["credits" := VNum 500]} Sample.world0).2
       = [GetLiveUser "u1"; SaveUserToLive merged]
    /\ merged !! "credits" = Some (VNum 500)
    /\ merged !! "name" = Some (VStr "Alice").
Proof.
  destruct (updateUser_shallow_merge Sample.env_utc "u1" {["credits" := VNum 500]}
              Sample.alice Sample.world0 eq_refl eq_refl eq_refl)
    as (merged & Hr & Ht & _ & _ & Hc).
  destruct (Hc eq_refl) as (_ & Hcredits & Hrest).
  exists merged. split; [exact Hr |]. split; [exact Ht |]. split; [exact Hcredits |].
  rewrite Hrest by discriminate. reflexivity.
Defined.

(* ===================================================================== *)
(** ** Handlers on a user that is not in the live store *)
(* ===================================================================== *)

Lemma Date_now_eq (env : Env) (w : World) :
  Date_now env w = (Ok (clock env (clock_reads w)), ticks 1 w).
Proof. reflexivity. Qed.

Lemma ticks_ticks (n m : nat) (w : World) : ticks n (ticks m w) = ticks (n + m) w.
Proof. unfold ticks; simpl. f_equal. lia. Qed.

(** C2, as the code has it.  When the live store has no record of
    [userId] and the read of it succeeds, [updateUser], [banUser],
    [unbanUser], [sendInboxMessage] and [grantSubscription] throw the
    "User not found" error, the first three under [updateUser]'s wrapper,
    after that single read: nothing is written or deleted in either
    store.  [deleteUser] makes no such check: it issues both deletions and
    reports success. *)
Theorem absent_user_not_found (env : Env) (userId : string) (w : World) :
  live_users w !! userId = None ->
  fault env (length (trace w)) = None ->
  let w1 := log_op (GetLiveUser userId) w in
  stores w1 = stores w
  /\ (forall updates,
         updateUser env userId updates w
         = (Throw "Failed to update user: User not found", w1))
  /\ (forall reason,
         banUser env userId reason w
         = (Throw "Failed to update user: User not found", w1))
  /\ unbanUser env userId w = (Throw "Failed to update user: User not found", w1)
  /\ (forall text, sendInboxMessage env userId text w = (Throw "User not found", w1))
  /\ (forall plan level,
         grant_endDate env plan (clock env (clock_reads w))
                       (clock env (S (clock_reads w))) <> Some None ->
         grantSubscription env userId plan level w
         = (Throw "User not found", log_op (GetLiveUser userId) (ticks 3 w)))
  /\ (fault env (S (length (trace w))) = None ->
      deleteUser env userId w
      = (Ok ("User " +:+ userId +:+ " deleted successfully from Firestore and RTDB."),
         deleted userId w)).
Proof.
  intros Hu Hf w1. subst w1.
  split; [reflexivity |].
  split; [intros; apply updateUser_absent; assumption |].
  split; [intros; apply updateUser_absent; assumption |].
  split; [apply updateUser_absent; assumption |].
  split; [| split].
  - intros text. unfold sendInboxMessage, bind.
    rewrite get_live_user_ok by exact Hf. rewrite Hu. reflexivity.
  - intros plan level Hend.
    unfold grantSubscription, bind.
    rewrite !Date_now_eq, !ticks_ticks. cbn [clock_reads ticks Nat.add].
    destruct (grant_endDate env plan _ _) as [[d |] |] eqn:E;
      [| contradiction Hend; reflexivity |];
      unfold endDate_or, bind, lift, ret; cbn [JsDate.toISOString];
      rewrite get_live_user_ok by exact Hf; cbn [live_users ticks]; rewrite Hu;
      reflexivity.
  - intros H1. apply deleteUser_ok; assumption.
Qed.

Lemma absent_user_not_found_witness :
  updateUser Sample.env_utc "u3" {["credits" := VNum 500]} Sample.world0
  = (Throw "Failed to update user: User not found",
     log_op (GetLiveUser "u3") Sample.world0)
  /\ grantSubscription Sample.env_utc "u3" "WEEKLY" "BASIC" Sample.world0
     = (Throw "User not found", log_op (GetLiveUser "u3") (ticks 3 Sample.world0)).
Proof.
  destruct (absent_user_not_found Sample.env_utc "u3" Sample.world0 eq_refl eq_refl)
    as (_ & Hupd & _ & _ & _ & Hgrant & _).
  split; [apply Hupd |].
  apply Hgrant. vm_compute. discriminate.
Defined.

(** C2, as stated, fails for [deleteUser]: "u3" has no live record, yet
    [deleteUser "u3"] throws nothing, reports success, and deletes the
    user's durable document. *)
Lemma deleteUser_absent_counterexample :
  let r := deleteUser Sample.env_utc "u3" Sample.world0 in
  live_users Sample.world0 !! "u3" = None
  /\ r.1 = Ok "User u3 deleted successfully from Firestore and RTDB."
  /\ trace r.2 = [DeleteDoc "u3"; RemoveLiveUser "u3"]
  /\ In ("u3", Sample.carol) (fs_users Sample.world0)
  /\ fs_users r.2 = [("u1", Sample.alice); ("u2", Sample.bob); ("u4", Sample.dave)].
Proof.
  cbv zeta. split; [reflexivity |]. split; [reflexivity |]. split; [reflexivity |].
  split; [simpl; tauto | reflexivity].
Qed.

(* ===================================================================== *)
(** ** grantSubscription *)
(* ===================================================================== *)

(** The end marker of the history entry and the end date handed to
    [updateUser], for an end date that is [null] or a valid [Date]. *)
Lemma endDate_or_valid (endDate : option (option Z)) (otherwise : JsValue)
    (w : World) :
  endDate <> Some None ->
  endDate_or endDate otherwise w
  = (Ok (match endDate with
         | Some (Some t) => VStr (JsDate.isoString t)
         | _ => otherwise
         end), w).
Proof.
  intros H. destruct endDate as [[t |] |]; [reflexivity | congruence | reflexivity].
Qed.

(** A successful grant: three clock readings, the read of the live record,
    then [updateUser] with the new fields. *)
Lemma grantSubscription_ok (env : Env) (userId plan level : string)
    (user : JsObject) (prior : list JsValue) (w : World) :
  live_users w !! userId = Some user ->
  iterate (js_or (get_field user "subscriptionHistory") (VArr [])) = Ok prior ->
  fault env (length (trace w)) = None ->
  fault env (S (length (trace w))) = None ->
  fault env (S (S (length (trace w)))) = None ->
  let now := clock env (clock_reads w) in
  let stamp := clock env (S (S (clock_reads w))) in
  let endDate := grant_endDate env plan now (clock env (S (clock_reads w))) in
  endDate <> Some None ->
  let entryEnd := match endDate with
                  | Some (Some t) => VStr (JsDate.isoString t)
                  | _ => VStr "LIFETIME"
                  end in
  let userEnd := match endDate with
                 | Some (Some t) => VStr (JsDate.isoString t)
                 | _ => VUndefined
                 end in
  let entry := grant_historyEntry plan level now stamp entryEnd in
  let merged := spread user (grant_updates plan level userEnd (VObj entry :: prior)) in
  grantSubscription env userId plan level w
  = (Ok ("User " +:+ userId +:+ " updated."),
     updated userId merged (log_op (GetLiveUser userId) (ticks 3 w))).
Proof.
  intros Hu Hit H0 H1 H2 now stamp endDate Hend entryEnd userEnd entry merged.
  unfold grantSubscription, bind.
  rewrite !Date_now_eq, !ticks_ticks. cbn [clock_reads ticks Nat.add].
  fold now stamp endDate.
  rewrite endDate_or_valid by exact Hend. fold entryEnd.
  rewrite get_live_user_ok by exact H0. cbn [live_users ticks]. rewrite Hu.
  rewrite Hit. unfold lift at 1.
  rewrite endDate_or_valid by exact Hend. fold userEnd entry.
  apply updateUser_ok.
  - exact Hu.
  - rewrite trace_log_op. exact H1.
  - rewrite trace_log_op. exact H2.
Qed.

Lemma trace_after_grant (userId : string) (merged : JsObject) (w : World) :
  trace (updated userId merged (log_op (GetLiveUser userId) (ticks 3 w)))
  = trace w ++ [GetLiveUser userId; GetLiveUser userId; SaveUserToLive merged].
Proof. simpl. rewrite <- app_assoc. reflexivity. Qed.

Lemma grant_updates_endDate (user : JsObject) (plan level : string)
    (userEnd : JsValue) (h : list JsValue) :
  get_field (spread user (grant_updates plan level userEnd h)) "subscriptionEndDate"
  = userEnd.
Proof.
  unfold get_field, spread.
  rewrite (lookup_union_Some_l _ _ _ userEnd); reflexivity.
Qed.

Lemma grant_updates_history (user : JsObject) (plan level : string)
    (userEnd : JsValue) (h : list JsValue) :
  get_field (spread user (grant_updates plan level userEnd h)) "subscriptionHistory"
  = VArr h.
Proof.
  unfold get_field, spread.
  rewrite (lookup_union_Some_l _ _ _ (VArr h)); reflexivity.
Qed.




(** Why the two readings matter: when the clock passes midnight at the end
    of January between them, the end date is February moved to day 38. *)
Example grant_weekly_across_midnight :
  exists merged,
    trace (grantSubscription Sample.env_midnight "u1" "WEEKLY" "BASIC" Sample.world0).2
    = [GetLiveUser "u1"; GetLiveUser "u1"; SaveUserToLive merged]
    /\ get_field merged "subscriptionEndDate" = VStr "2024-03-09T00:00:00.000Z".
Proof.
  exists (spread Sample.alice
            (grant_updates "WEEKLY" "BASIC" (VStr "2024-03-09T00:00:00.000Z")
               [VObj (grant_historyEntry "WEEKLY" "BASIC" 1706745599999 1706745600000
                        (VStr "2024-03-09T00:00:00.000Z"));
                VObj Sample.old_grant])).
  split; vm_compute; reflexivity.
Qed.



(* ===================================================================== *)
(** ** One month back *)
(* ===================================================================== *)

Module JsMonthFacts.
Import JsDate JsDateFacts.

Lemma DayWithinYear_range (t : Z) : 0 <= DayWithinYear t < 365 + InLeapYear t.
Proof.
  unfold DayWithinYear, InLeapYear, YearFromTime.
  pose proof (YearFromDay_spec (Day t)) as H.
  rewrite DayFromYear_succ in H. lia.
Qed.

Lemma InLeapYear_cases (t : Z) : InLeapYear t = 0 \/ InLeapYear t = 1.
Proof. unfold InLeapYear. destruct (isLeap _); auto. Qed.

(** The day of the month is at least 1. *)
Lemma DateFromTime_lower (t : Z) : 1 <= DateFromTime t.
Proof.
  pose proof (DayWithinYear_range t) as Hr.
  pose proof (InLeapYear_cases t) as Hl.
  unfold DateFromTime, MonthFromTime, monthStart.
  repeat match goal with
         | |- context [?a <? ?b] => destruct (Z.ltb_spec a b); try lia
         end;
    repeat match goal with
           | |- context [?a =? ?b] => destruct (Z.eqb_spec a b); try lia
           end.
Qed.

Lemma month_cases (month : Z) :
  0 <= month < 12 ->
  month = 0 \/ month = 1 \/ month = 2 \/ month = 3 \/ month = 4 \/ month = 5
  \/ month = 6 \/ month = 7 \/ month = 8 \/ month = 9 \/ month = 10 \/ month = 11.
Proof. lia. Qed.

(** [MakeDay] of a day that the month has: the day lies in that year and
    month and is that day of it. *)
Lemma MakeDay_in_month (t year month date : Z) :
  0 <= month < 12 ->
  1 <= date <= days_in_month year month ->
  Day t = MakeDay year month date ->
  YearFromTime t = year /\ MonthFromTime t = month /\ DateFromTime t = date.
Proof.
  intros Hm Hd Hday.
  unfold MakeDay in Hday.
  rewrite (Z.div_small month 12), (Z.mod_small month 12), Z.add_0_r in Hday by lia.
  assert (Hy : YearFromTime t = year).
  { unfold YearFromTime. apply YearFromDay_unique. rewrite Hday, DayFromYear_succ.
    clear Hday. generalize (DayFromYear year). intros D.
    unfold days_in_month, monthStart in Hd. unfold monthStart.
    destruct (isLeap year);
      destruct (month_cases month Hm)
        as [-> | [-> | [-> | [-> | [-> | [-> | [-> | [-> | [-> | [-> | [-> | ->]]]]]]]]]]];
      repeat match goal with
             | H : context [?a =? ?b] |- _ => destruct (Z.eqb_spec a b); try lia
             | |- context [?a =? ?b] => destruct (Z.eqb_spec a b); try lia
             end. }
  assert (Hmo : MonthFromTime t = month).
  { unfold MonthFromTime, DayWithinYear, InLeapYear. rewrite Hy, Hday.
    clear Hday Hy. generalize (DayFromYear year). intros D.
    unfold days_in_month, monthStart in Hd. unfold monthStart.
    destruct (isLeap year);
      destruct (month_cases month Hm)
        as [-> | [-> | [-> | [-> | [-> | [-> | [-> | [-> | [-> | [-> | [-> | ->]]]]]]]]]]];
      repeat match goal with
             | H : context [?a =? ?b] |- _ => destruct (Z.eqb_spec a b); try lia
             | |- context [?a =? ?b] => destruct (Z.eqb_spec a b); try lia
             end;
      repeat match goal with
             | |- context [?a <? ?b] => destruct (Z.ltb_spec a b); try lia
             end. }
  split; [exact Hy |]. split; [exact Hmo |].
  unfold DateFromTime, DayWithinYear, InLeapYear. rewrite Hmo, Hy, Hday. lia.
Qed.

(** A month before January is carried into the year before. *)
Lemma MakeDay_carry (year month date : Z) :
  MakeDay year month date
  = MakeDay (year + month / 12) (month mod 12) 1 + (date - 1).
Proof.
  unfold MakeDay.
  pose proof (Z.mod_pos_bound month 12 ltac:(lia)) as Hb.
  rewrite (Z.div_small (month mod 12) 12), (Z.mod_small (month mod 12) 12) by lia.
  rewrite Z.add_0_r. lia.
Qed.

Lemma MakeDate_parts (day time : Z) :
  0 <= time < msPerDay ->
  Day (MakeDate day time) = day /\ TimeWithinDay (MakeDate day time) = time.
Proof.
  unfold MakeDate, Day, TimeWithinDay, msPerDay. intros H.
  Z.to_euclidean_division_equations; lia.
Qed.

End JsMonthFacts.

(** [d.setMonth(d.getMonth() - 1)] lands, in local time, as many days after
    the first of the previous month as the day of the month of [d] is after
    the first, at the same time of day: on the same day of the previous
    month when that month has such a day. *)
Lemma setMonth_previous (env : Env) (t : Z) :
  let lt := LocalTime env t in
  let prevYear := JsDate.YearFromTime lt + (JsDate.MonthFromTime lt - 1) / 12 in
  let prevMonth := (JsDate.MonthFromTime lt - 1) mod 12 in
  let d := JsDate.DateFromTime lt in
  exists bound,
    setMonth env t (getMonth env t - 1) = JsDate.TimeClip (UTC env bound)
    /\ JsDate.TimeWithinDay bound = JsDate.TimeWithinDay lt
    /\ JsDate.Day bound = JsDate.MakeDay prevYear prevMonth 1 + (d - 1)
    /\ (d <= days_in_month prevYear prevMonth ->
        JsDate.YearFromTime bound = prevYear
        /\ JsDate.MonthFromTime bound = prevMonth
        /\ JsDate.DateFromTime bound = d).
Proof.
  intros lt prevYear prevMonth d.
  exists (JsDate.MakeDate
            (JsDate.MakeDay (JsDate.YearFromTime lt) (JsDate.MonthFromTime lt - 1) d)
            (JsDate.TimeWithinDay lt)).
  assert (Htw : 0 <= JsDate.TimeWithinDay lt < JsDate.msPerDay)
    by (unfold JsDate.TimeWithinDay, JsDate.msPerDay; apply Z.mod_pos_bound; lia).
  destruct (JsMonthFacts.MakeDate_parts
              (JsDate.MakeDay (JsDate.YearFromTime lt) (JsDate.MonthFromTime lt - 1) d)
              (JsDate.TimeWithinDay lt) Htw) as [Hday Htime].
  split; [reflexivity |]. split; [exact Htime |].
  assert (Hcarry : JsDate.Day
                     (JsDate.MakeDate
                        (JsDate.MakeDay (JsDate.YearFromTime lt)
                           (JsDate.MonthFromTime lt - 1) d)
                        (JsDate.TimeWithinDay lt))
                   = JsDate.MakeDay prevYear prevMonth 1 + (d - 1))
    by (rewrite Hday; apply JsMonthFacts.MakeDay_carry).
  split; [exact Hcarry |].
  intros Hd.
  apply JsMonthFacts.MakeDay_in_month.
  - apply Z.mod_pos_bound. lia.
  - split; [apply JsMonthFacts.DateFromTime_lower | exact Hd].
  - rewrite Hcarry. unfold JsDate.MakeDay. lia.
Qed.

(* ===================================================================== *)
(** ** scanUsers *)
(* ===================================================================== *)

Lemma summary_dom (u : JsObject) : dom (summary u) = summary_fields.
Proof.
  unfold summary, obj, summary_fields; simpl.
  rewrite !dom_insert_L, dom_empty_L. set_solver.
Qed.

Lemma summary_values (u : JsObject) :
  get_field (summary u) "id" = get_field u "id"
  /\ get_field (summary u) "name" = get_field u "name"
  /\ get_field (summary u) "email" = get_field u "email"
  /\ get_field (summary u) "role" = get_field u "role"
  /\ get_field (summary u) "credits" = get_field u "credits"
  /\ get_field (summary u) "tier" = get_field u "subscriptionTier".
Proof. repeat split. Qed.

(** The values of [lastActiveTime] that count as no timestamp. *)
Lemma no_last_active_cases (u : JsObject) :
  no_last_active u
  <-> u !! "lastActiveTime" = None
      \/ get_field u "lastActiveTime" = VUndefined
      \/ get_field u "lastActiveTime" = VNull
      \/ get_field u "lastActiveTime" = VBool false
      \/ get_field u "lastActiveTime" = VNum 0
      \/ get_field u "lastActiveTime" = VStr "".
Proof.
  unfold no_last_active, get_field.
  destruct (u !! "lastActiveTime") as [v |]; simpl.
  - destruct v as [| | [|] | z | s | |]; simpl; split;
      try (intros H; discriminate H);
      try (intros H; tauto);
      try (intros [H | [H | [H | [H | [H | H]]]]]; discriminate H).
    + intros H. apply negb_false_iff, Z.eqb_eq in H. subst z. tauto.
    + intros [H | [H | [H | [H | [H | H]]]]]; try discriminate H.
      injection H as ->. reflexivity.
    + intros H. apply negb_false_iff, String.eqb_eq in H. subst s. tauto.
    + intros [H | [H | [H | [H | [H | H]]]]]; try discriminate H.
      injection H as ->. reflexivity.
  - split; auto.
Qed.

Lemma inactive_since_iff (env : Env) (bound : option Z) (u : JsObject) :
  inactive_since env bound u = true
  <-> no_last_active u \/ last_active_before env bound u.
Proof.
  unfold inactive_since, no_last_active, last_active_before.
  destruct (truthy (get_field u "lastActiveTime")); simpl.
  - destruct (Date_of env _) as [t |], bound as [m |]; split.
    + intros H. right. exists t, m. apply Z.ltb_lt in H. auto.
    + intros [H | (t' & m' & Ht & Hm & Hlt)]; [discriminate |].
      injection Ht as <-. injection Hm as <-. apply Z.ltb_lt. exact Hlt.
    + discriminate.
    + intros [H | (t' & m' & _ & Hm & _)]; discriminate.
    + discriminate.
    + intros [H | (t' & m' & Ht & _ & _)]; discriminate.
    + discriminate.
    + intros [H | (t' & m' & Ht & _ & _)]; discriminate.
  - split; auto.
Qed.

(** The INACTIVE scan with its read succeeding. *)
Lemma scan_inactive_result (env : Env) (w : World) :
  fault env (length (trace w)) = None ->
  let now := clock env (clock_reads w) in
  (scanUsers env "INACTIVE" w).1
  = Ok (List.map summary
          (List.filter (inactive_since env (setMonth env now (getMonth env now - 1)))
             (List.map snd (fs_users w)))).
Proof.
  intros Hf now.
  unfold scanUsers, bind, getAllUsers, try_catch, getDocs_users.
  rewrite store_call_ok by exact Hf. cbn [fst snd].
  change (String.eqb "INACTIVE" "INACTIVE") with true. cbv beta iota.
  rewrite Date_now_eq. reflexivity.
Qed.

(** C6, as the code has it.  [scanUsers("INACTIVE")] returns the summaries
    of exactly the users that have no last-active timestamp or were last
    active strictly before the bound [setMonth(getMonth() - 1)] gives for
    the clock reading; a user last active at that very instant is left
    out.  In local time the bound has the time of day of the reading and
    lies as many days after the first of the previous month as the reading
    lies after the first of its own: it is the same day of the previous
    month, one calendar month back, whenever the previous month has that
    day.  Each returned element has the six properties id, name, email,
    role, credits and tier and no other. *)
Theorem scanUsers_inactive (env : Env) (w : World) :
  fault env (length (trace w)) = None ->
  let now := clock env (clock_reads w) in
  let monthAgo := setMonth env now (getMonth env now - 1) in
  let users := List.map snd (fs_users w) in
  exists result,
    (scanUsers env "INACTIVE" w).1 = Ok result
    /\ result = List.map summary (List.filter (inactive_since env monthAgo) users)
    /\ (forall s, In s result <->
                  exists u, In u users
                            /\ (no_last_active u \/ last_active_before env monthAgo u)
                            /\ s = summary u)
    /\ (forall u, ~ no_last_active u ->
                  Date_of env (get_field u "lastActiveTime") = monthAgo ->
                  ~ In u (List.filter (inactive_since env monthAgo) users))
    /\ (forall s, In s result ->
                  dom s = summary_fields
                  /\ exists u, In u users
                               /\ get_field s "id" = get_field u "id"
                               /\ get_field s "name" = get_field u "name"
                               /\ get_field s "email" = get_field u "email"
                               /\ get_field s "role" = get_field u "role"
                               /\ get_field s "credits" = get_field u "credits"
                               /\ get_field s "tier" = get_field u "subscriptionTier")
    /\ (let lt := LocalTime env now in
        let prevYear := JsDate.YearFromTime lt + (JsDate.MonthFromTime lt - 1) / 12 in
        let prevMonth := (JsDate.MonthFromTime lt - 1) mod 12 in
        let d := JsDate.DateFromTime lt in
        exists bound,
          monthAgo = JsDate.TimeClip (UTC env bound)
          /\ JsDate.TimeWithinDay bound = JsDate.TimeWithinDay lt
          /\ JsDate.Day bound = JsDate.MakeDay prevYear prevMonth 1 + (d - 1)
          /\ (d <= days_in_month prevYear prevMonth ->
              JsDate.YearFromTime bound = prevYear
              /\ JsDate.MonthFromTime bound = prevMonth
              /\ JsDate.DateFromTime bound = d)).
Proof.
  intros Hf now monthAgo users.
  exists (List.map summary (List.filter (inactive_since env monthAgo) users)).
  split; [apply (scan_inactive_result env w Hf) |].
  split; [reflexivity |].
  split.
  { intros s. rewrite in_map_iff. split.
    - intros (u & <- & Hin). apply filter_In in Hin as [Hin Hp].
      exists u. split; [exact Hin |]. split; [| reflexivity].
      apply inactive_since_iff. exact Hp.
    - intros (u & Hin & Hp & ->). exists u. split; [reflexivity |].
      apply filter_In. split; [exact Hin |]. apply inactive_since_iff. exact Hp. }
  split.
  { intros u Hpresent Hdate Hin. apply filter_In in Hin as [_ Hp].
    apply inactive_since_iff in Hp as [Hp | (t & m & Ht & Hm & Hlt)].
    - contradiction.
    - rewrite Hdate, Hm in Ht. injection Ht as ->. lia. }
  split; [| apply setMonth_previous].
  intros s Hin. apply in_map_iff in Hin as (u & <- & Hin).
  apply filter_In in Hin as [Hin _].
  split; [apply summary_dom |].
  exists u. split; [exact Hin |]. apply summary_values.
Qed.

Lemma scanUsers_inactive_witness :
  let monthAgo :=
    setMonth Sample.env_utc Sample.t0 (getMonth Sample.env_utc Sample.t0 - 1) in
  (scanUsers Sample.env_utc "INACTIVE" Sample.world0).1
  = Ok [summary Sample.carol; summary Sample.dave]
  /\ monthAgo = Some 1707152400000
  /\ Date_of Sample.env_utc (get_field Sample.bob "lastActiveTime") = monthAgo
  /\ ~ In Sample.bob
       (List.filter (inactive_since Sample.env_utc monthAgo)
          [Sample.alice; Sample.bob; Sample.carol; Sample.dave])
  /\ exists bound,
       monthAgo = JsDate.TimeClip (UTC Sample.env_utc bound)
       /\ JsDate.MonthFromTime bound = 1
       /\ JsDate.DateFromTime bound = 5.
Proof.
  intros monthAgo.
  destruct (scanUsers_inactive Sample.env_utc Sample.world0 eq_refl)
    as (result & Hr & Hres & _ & Hboundary & _ & Hmonth).
  assert (Hm : monthAgo = Some 1707152400000) by (vm_compute; reflexivity).
  assert (Hb : Date_of Sample.env_utc (get_field Sample.bob "lastActiveTime") = monthAgo)
    by (vm_compute; reflexivity).
  split; [| split; [exact Hm | split; [exact Hb | split]]].
  - rewrite Hr, Hres.
    match goal with
    | |- Ok (List.map summary ?l) = _ =>
        replace l with [Sample.carol; Sample.dave]; [reflexivity | symmetry]
    end.
    change (clock Sample.env_utc (clock_reads Sample.world0)) with Sample.t0.
    fold monthAgo.
    unfold Sample.world0. cbn [fs_users List.map snd List.filter].
    replace (inactive_since Sample.env_utc monthAgo Sample.alice) with false
      by (vm_compute; reflexivity).
    replace (inactive_since Sample.env_utc monthAgo Sample.bob) with false
      by (vm_compute; reflexivity).
    replace (inactive_since Sample.env_utc monthAgo Sample.carol) with true
      by (vm_compute; reflexivity).
    replace (inactive_since Sample.env_utc monthAgo Sample.dave) with true
      by (vm_compute; reflexivity).
    reflexivity.
  - apply Hboundary.
    + unfold no_last_active. vm_compute. discriminate.
    + exact Hb.
  - cbv zeta in Hmonth. destruct Hmonth as (bound & Hbound & _ & _ & Hin).
    exists bound. split; [exact Hbound |].
    destruct (Hin ltac:(vm_compute; discriminate)) as (_ & Hmo & Hda).
    split.
    + rewrite Hmo. vm_compute. reflexivity.
    + rewrite Hda. vm_compute. reflexivity.
Defined.

(** C6, as stated, fails at the end of a month.  On 2024-03-31 at noon the
    bound is 2024-03-02 at noon, February having no 31st: a user last
    active on 2024-03-01 at noon, thirty days before the reading and in
    the same calendar month, is listed as inactive. *)
Lemma scanUsers_month_end_counterexample :
  let env := SampleMore.env_month_end in
  let now := clock env 0 in
  let monthAgo := setMonth env now (getMonth env now - 1) in
  let lastActive := now - 30 * JsDate.msPerDay in
  JsDate.isoString now = "2024-03-31T12:00:00.000Z"
  /\ monthAgo = Some 1709380800000
  /\ JsDate.isoString 1709380800000 = "2024-03-02T12:00:00.000Z"
  /\ Date_of env (get_field SampleMore.frank "lastActiveTime") = Some lastActive
  /\ JsDate.isoString lastActive = "2024-03-01T12:00:00.000Z"
  /\ JsDate.MonthFromTime lastActive = JsDate.MonthFromTime now
  /\ (scanUsers env "INACTIVE" SampleMore.world_month_end).1
     = Ok [summary SampleMore.frank].
Proof.
  intros env now monthAgo lastActive.
  split; [vm_compute; reflexivity |].
  split; [vm_compute; reflexivity |].
  split; [vm_compute; reflexivity |].
  split; [vm_compute; reflexivity |].
  split; [vm_compute; reflexivity |].
  split; [vm_compute; reflexivity |].
  rewrite (scan_inactive_result env SampleMore.world_month_end eq_refl).
  match goal with
  | |- Ok (List.map summary ?l) = _ =>
      replace l with [SampleMore.frank]; [reflexivity | symmetry]
  end.
  unfold SampleMore.world_month_end. cbn [fs_users List.map snd List.filter clock_reads].
  match goal with
  | |- context [inactive_since ?e ?m SampleMore.frank] =>
      replace (inactive_since e m SampleMore.frank) with true
        by (vm_compute; reflexivity)
  end.
  reflexivity.
Qed.

(* ===================================================================== *)
(** ** The dispatcher *)
(* ===================================================================== *)

(** The enum-typed parameters of the catalog are [plan] and [level] of
    [grantSubscription] and [filter] of [scanUsers]. *)
Lemma catalog_enum_parameters (t : ToolSchema) (p : ParamSchema) (members : list string) :
  In t adminTools -> In p (tool_properties t) -> param_enum p = Some members ->
  (tool_name t = "grantSubscription"
   /\ (param_name p = "plan" /\ members = ["WEEKLY"; "MONTHLY"; "YEARLY"; "LIFETIME"]
       \/ param_name p = "level" /\ members = ["BASIC"; "ULTRA"]))
  \/ (tool_name t = "scanUsers"
      /\ param_name p = "filter" /\ members = ["ALL"; "PREMIUM"; "FREE"; "INACTIVE"]).
Proof.
  unfold adminTools. simpl. intros Ht Hp He.
  repeat (destruct Ht as [<- | Ht];
          [simpl in Hp;
           repeat (destruct Hp as [<- | Hp];
                   [simpl in He; try discriminate He; injection He as <-; simpl; tauto |]);
           destruct Hp |]).
  destruct Ht.
Qed.

Lemma validate_missing_required (t : ToolSchema) (args : JsObject) :
  missing_required t args -> validate t args = false.
Proof.
  intros (r & Hin & Hr). unfold validate.
  apply andb_false_iff. left.
  destruct (forallb _ (tool_required t)) eqn:E; [| reflexivity].
  rewrite forallb_forall in E. specialize (E r Hin).
  apply bool_decide_eq_true in E. rewrite Hr in E. destruct E as [? E]. discriminate E.
Qed.

Lemma validate_enum_violation (t : ToolSchema) (args : JsObject) :
  enum_violation t args -> validate t args = false.
Proof.
  intros (p & members & v & Hin & He & Hv & Hout). unfold validate.
  apply andb_false_iff. right.
  destruct (forallb _ (tool_properties t)) eqn:E; [| reflexivity].
  rewrite forallb_forall in E. specialize (E p Hin). rewrite Hv in E.
  unfold shape_ok, enum_ok in E. rewrite He in E.
  apply andb_true_iff in E as [_ E].
  destruct v; try discriminate E.
  apply existsb_exists in E as (m & Hm & Heq).
  apply String.eqb_eq in Heq. subst m. exfalso. exact (Hout s Hm eq_refl).
Qed.

(** C1.  A call that names an operation of the catalog but lacks a required
    parameter, or carries a value outside the declared set for an
    enum-typed parameter, fails with [InvalidArguments] and leaves the
    world, stores and trace of store calls alike, as it was. *)
Theorem dispatch_rejects_invalid_arguments (env : Env) (name : string)
    (t : ToolSchema) (args : JsObject) (w : World) :
  find_tool name = Some t ->
  missing_required t args \/ enum_violation t args ->
  dispatch env name args w = (Failed InvalidArguments, w).
Proof.
  intros Hfind Hbad. unfold dispatch. rewrite Hfind.
  assert (Hv : validate t args = false).
  { destruct Hbad; [apply validate_missing_required | apply validate_enum_violation];
      assumption. }
  rewrite Hv. reflexivity.
Qed.

Lemma dispatch_rejects_invalid_arguments_witness :
  dispatch Sample.env_utc "grantSubscription"
    (obj [("userId", VStr "u1"); ("plan", VStr "DAILY"); ("level", VStr "BASIC")])
    Sample.world0
  = (Failed InvalidArguments, Sample.world0)
  /\ dispatch Sample.env_utc "sendInboxMessage" (obj [("userId", VStr "u1")])
       Sample.world0
     = (Failed InvalidArguments, Sample.world0).
Proof.
  split.
  - eapply dispatch_rejects_invalid_arguments; [reflexivity |].
    right. exists (mkParam "plan" "string" None
                     (Some ["WEEKLY"; "MONTHLY"; "YEARLY"; "LIFETIME"])).
    exists ["WEEKLY"; "MONTHLY"; "YEARLY"; "LIFETIME"], (VStr "DAILY").
    split; [simpl; tauto |]. split; [reflexivity |]. split; [reflexivity |].
    intros m Hm. simpl in Hm.
    repeat (destruct Hm as [<- | Hm]; [discriminate |]). destruct Hm.
  - eapply dispatch_rejects_invalid_arguments; [reflexivity |].
    left. exists "text". split; [simpl; tauto | reflexivity].
Defined.

(** A well-formed call goes through to the handler. *)
Example dispatch_valid_call :
  (dispatch Sample.env_utc "banUser" (obj [("userId", VStr "u1")]) Sample.world0).1
  = Done (VStr "User u1 updated.").
Proof. vm_compute. reflexivity. Qed.

Example dispatch_unknown_operation :
  dispatch Sample.env_utc "nonexistentOp" ∅ Sample.world0
  = (Failed UnknownOperation, Sample.world0).
Proof. reflexivity. Qed.

(* ===================================================================== *)
(** ** More on the user handlers *)
(* ===================================================================== *)

Lemma spread_lookup_set (a b : JsObject) (k : string) (v : JsValue) :
  b !! k = Some v -> get_field (spread a b) k = v.
Proof.
  intros H. unfold get_field, spread. rewrite (lookup_union_Some_l _ _ _ v H). reflexivity.
Qed.

Lemma spread_lookup_kept (a b : JsObject) (k : string) :
  b !! k = None -> spread a b !! k = a !! k.
Proof. intros H. unfold spread. apply lookup_union_r. exact H. Qed.

(** X1.  A store failure in [updateUser], at the read or at the save, comes
    out under the handler's wrapper with the store's message, and the
    stores are as they were. *)
Theorem updateUser_store_failure (env : Env) (userId : string)
    (updates : JsObject) (w : World) (msg : string) :
  (fault env (length (trace w)) = Some msg
   \/ (fault env (length (trace w)) = None
       /\ is_Some (live_users w !! userId)
       /\ fault env (S (length (trace w))) = Some msg)) ->
  (updateUser env userId updates w).1 = Throw ("Failed to update user: " +:+ msg)
  /\ stores (updateUser env userId updates w).2 = stores w.
Proof.
  intros [Hf | (H0 & [current Hu] & H1)]; unfold updateUser, try_catch, bind.
  - unfold get_live_user. rewrite (store_call_fault env _ _ _ msg Hf). split; reflexivity.
  - rewrite get_live_user_ok by exact H0. rewrite Hu.
    unfold saveUserToLive.
    rewrite (store_call_fault env _ _ _ msg) by (rewrite trace_log_op; exact H1).
    split; reflexivity.
Qed.

Lemma updateUser_store_failure_witness :
  (updateUser SampleMore.env_second_down "u1" {["credits" := VNum 1]}
     SampleMore.world1).1
  = Throw "Failed to update user: permission denied"
  /\ stores (updateUser SampleMore.env_second_down "u1" {["credits" := VNum 1]}
               SampleMore.world1).2
     = stores SampleMore.world1.
Proof.
  apply (updateUser_store_failure SampleMore.env_second_down "u1"
           {["credits" := VNum 1]} SampleMore.world1 "permission denied").
  right. split; [reflexivity |]. split; [| reflexivity].
  exists Sample.alice. reflexivity.
Defined.

Lemma doc_ids_deleted (userId : string) (w : World) :
  ~ In userId (List.map fst
                 (List.filter (fun d => negb (String.eqb d.1 userId)) (fs_users w))).
Proof.
  intros Hin. apply in_map_iff in Hin as (d & Hd & Hin).
  apply filter_In in Hin as [_ Hneq].
  apply negb_true_iff, String.eqb_neq in Hneq. contradiction.
Qed.

(** X2.  When both deletions go through, [deleteUser] leaves no document
    and no live record of the user, and every other user's document and
    live record, the logs and the settings are untouched. *)
Theorem deleteUser_removes_only_that_user (env : Env) (userId : string) (w : World) :
  fault env (length (trace w)) = None ->
  fault env (S (length (trace w))) = None ->
  let w' := (deleteUser env userId w).2 in
  live_users w' !! userId = None
  /\ ~ In userId (doc_ids w')
  /\ (forall other, other <> userId -> live_users w' !! other = live_users w !! other)
  /\ (forall d, In d (fs_users w') <-> In d (fs_users w) /\ d.1 <> userId)
  /\ fs_logs w' = fs_logs w
  /\ live_settings w' = live_settings w.
Proof.
  intros H0 H1. rewrite (deleteUser_ok env userId w H0 H1). cbn [snd].
  unfold deleted, doc_ids; cbn [live_users fs_users fs_logs live_settings].
  split; [apply lookup_delete_eq |].
  split; [apply doc_ids_deleted |].
  split; [intros other Hne; apply lookup_delete_ne; congruence |].
  split; [| split; reflexivity].
  intros d. rewrite filter_In. split.
  - intros [Hin Hneq]. split; [exact Hin |].
    apply negb_true_iff, String.eqb_neq in Hneq. exact Hneq.
  - intros [Hin Hneq]. split; [exact Hin |].
    apply negb_true_iff, String.eqb_neq. exact Hneq.
Qed.

Lemma deleteUser_removes_only_that_user_witness :
  let w' := (deleteUser Sample.env_utc "u1" Sample.world0).2 in
  live_users w' !! "u1" = None
  /\ ~ In "u1" (doc_ids w')
  /\ live_users w' !! "u2" = Some Sample.bob.
Proof.
  destruct (deleteUser_removes_only_that_user Sample.env_utc "u1" Sample.world0
              eq_refl eq_refl) as (Hl & Hd & Ho & _).
  cbv zeta. split; [exact Hl |]. split; [exact Hd |].
  rewrite Ho by discriminate. reflexivity.
Defined.

(** X3.  [deleteUser] is not atomic: when the durable deletion succeeds and
    the removal of the live record fails, the handler throws, the durable
    document is gone and the live record is still there. *)
Theorem deleteUser_partial_deletion (env : Env) (userId : string) (w : World)
    (msg : string) :
  fault env (length (trace w)) = None ->
  fault env (S (length (trace w))) = Some msg ->
  let r := deleteUser env userId w in
  r.1 = Throw ("Failed to delete user " +:+ userId +:+ ": " +:+ msg)
  /\ ~ In userId (doc_ids r.2)
  /\ live_users r.2 = live_users w
  /\ trace r.2 = trace w ++ [DeleteDoc userId; RemoveLiveUser userId].
Proof.
  intros H0 H1. cbv zeta.
  unfold deleteUser, try_catch, bind, deleteDoc_user, remove_live_user.
  rewrite (store_call_ok env _ _ _ H0). cbn [fst snd].
  rewrite (store_call_fault env _ _ _ msg)
    by (unfold set_fs_users; cbn [trace]; rewrite trace_log_op; exact H1).
  unfold throw, doc_ids, set_fs_users, log_op; cbn [fst snd fs_users live_users trace].
  split; [reflexivity |]. split; [apply doc_ids_deleted |]. split; [reflexivity |].
  rewrite <- app_assoc. reflexivity.
Qed.

Lemma deleteUser_partial_deletion_witness :
  let r := deleteUser SampleMore.env_second_down "u1" SampleMore.world1 in
  r.1 = Throw "Failed to delete user u1: permission denied"
  /\ ~ In "u1" (doc_ids r.2)
  /\ live_users r.2 !! "u1" = Some Sample.alice.
Proof.
  destruct (deleteUser_partial_deletion SampleMore.env_second_down "u1"
              SampleMore.world1 "permission denied" eq_refl eq_refl)
    as (Hr & Hd & Hl & _).
  cbv zeta. split; [exact Hr |]. split; [exact Hd |].
  rewrite Hl. reflexivity.
Defined.

(** A message sent: the read of the live record, two clock readings, then
    [updateUser] with the new inbox. *)
Lemma sendInboxMessage_ok (env : Env) (userId text : string) (user : JsObject)
    (prior : list JsValue) (w : World) :
  live_users w !! userId = Some user ->
  iterate (js_or (get_field user "inbox") (VArr [])) = Ok prior ->
  fault env (length (trace w)) = None ->
  fault env (S (length (trace w))) = None ->
  fault env (S (S (length (trace w)))) = None ->
  let newMsg := inbox_message text (clock env (clock_reads w))
                  (clock env (S (clock_reads w))) in
  let merged := spread user (obj [("inbox", VArr (VObj newMsg :: prior))]) in
  sendInboxMessage env userId text w
  = (Ok ("Message sent to " +:+ ToString (get_field user "name") +:+ "."),
     updated userId merged (ticks 2 (log_op (GetLiveUser userId) w))).
Proof.
  intros Hu Hit H0 H1 H2 newMsg merged.
  unfold sendInboxMessage, bind.
  rewrite get_live_user_ok by exact H0. rewrite Hu.
  rewrite !Date_now_eq, !ticks_ticks. cbn [clock_reads ticks log_op Nat.add].
  rewrite Hit. unfold lift at 1.
  fold (inbox_message text (clock env (clock_reads w)) (clock env (S (clock_reads w)))).
  fold newMsg.
  rewrite (updateUser_ok env userId _ user).
  - reflexivity.
  - exact Hu.
  - change (trace (ticks 2 (log_op (GetLiveUser userId) w)))
      with (trace (log_op (GetLiveUser userId) w)).
    rewrite trace_log_op. exact H1.
  - change (trace (ticks 2 (log_op (GetLiveUser userId) w)))
      with (trace (log_op (GetLiveUser userId) w)).
    rewrite trace_log_op. exact H2.
Qed.

(** X4.  [sendInboxMessage] on an existing user writes back the user's
    record with the new message in front of the prior inbox and every
    other field as stored; the message is unread, of type "TEXT", carries
    the text given and the time of the call; the handler answers with the
    user's name. *)
Theorem sendInboxMessage_prepends (env : Env) (userId text : string)
    (user : JsObject) (prior : list JsValue) (w : World) :
  live_users w !! userId = Some user ->
  iterate (js_or (get_field user "inbox") (VArr [])) = Ok prior ->
  fault env (length (trace w)) = None ->
  fault env (S (length (trace w))) = None ->
  fault env (S (S (length (trace w)))) = None ->
  let newMsg := inbox_message text (clock env (clock_reads w))
                  (clock env (S (clock_reads w))) in
  exists merged,
    (sendInboxMessage env userId text w).1
    = Ok ("Message sent to " +:+ ToString (get_field user "name") +:+ ".")
    /\ trace (sendInboxMessage env userId text w).2
       = trace w ++ [GetLiveUser userId; GetLiveUser userId; SaveUserToLive merged]
    /\ get_field merged "inbox" = VArr (VObj newMsg :: prior)
    /\ (forall k, k <> "inbox" -> merged !! k = user !! k)
    /\ get_field newMsg "text" = VStr text
    /\ get_field newMsg "read" = VBool false
    /\ get_field newMsg "type" = VStr "TEXT"
    /\ get_field newMsg "date"
       = VStr (JsDate.isoString (clock env (S (clock_reads w))))
    /\ get_field newMsg "id" = VStr ("msg-" +:+ pretty (clock env (clock_reads w))).
Proof.
  intros Hu Hit H0 H1 H2 newMsg.
  pose proof (sendInboxMessage_ok env userId text user prior w Hu Hit H0 H1 H2) as Hs.
  cbv zeta in Hs. eexists. rewrite Hs. cbn [fst snd].
  split; [reflexivity |].
  split; [cbn [updated trace ticks log_op]; rewrite <- app_assoc; reflexivity |].
  split; [apply spread_lookup_set; reflexivity |].
  split.
  { intros k Hk. apply spread_lookup_kept. unfold obj; cbn [list_to_map foldr].
    rewrite lookup_insert_ne by (intros E; apply Hk; symmetry; exact E).
    apply lookup_empty. }
  repeat split.
Qed.

Lemma sendInboxMessage_prepends_witness :
  exists merged,
    (sendInboxMessage Sample.env_utc "u2" "hi" Sample.world0).1
    = Ok "Message sent to Bob."
    /\ trace (sendInboxMessage Sample.env_utc "u2" "hi" Sample.world0).2
       = [GetLiveUser "u2"; GetLiveUser "u2"; SaveUserToLive merged]
    /\ get_field merged "inbox"
       = VArr [VObj (inbox_message "hi" Sample.t0 Sample.t0)]
    /\ merged !! "credits" = Some (VNum 5).
Proof.
  destruct (sendInboxMessage_prepends Sample.env_utc "u2" "hi" Sample.bob []
              Sample.world0 eq_refl eq_refl eq_refl eq_refl eq_refl)
    as (merged & Hr & Ht & Hi & Hk & _).
  exists merged. split; [exact Hr |]. split; [exact Ht |].
  split.
  - exact Hi.
  - rewrite Hk by discriminate. reflexivity.
Defined.

Lemma iterate_not_iterable (v : JsValue) :
  truthy v = true -> (forall l, v <> VArr l) -> (forall s, v <> VStr s) ->
  exists e, iterate (js_or v (VArr [])) = Throw e.
Proof.
  intros Ht Ha Hs. unfold js_or. rewrite Ht.
  destruct v; try discriminate Ht; simpl; eauto.
  - exfalso. exact (Hs s eq_refl).
  - exfalso. exact (Ha l eq_refl).
Qed.

(** X5.  A user whose [inbox] is stored as something that cannot be spread
    into an array (an object, a number, [true]) cannot be sent a message:
    [sendInboxMessage] throws after reading the record and writes
    nothing. *)
Theorem sendInboxMessage_unreadable_inbox (env : Env) (userId text : string)
    (user : JsObject) (w : World) :
  live_users w !! userId = Some user ->
  fault env (length (trace w)) = None ->
  truthy (get_field user "inbox") = true ->
  (forall l, get_field user "inbox" <> VArr l) ->
  (forall s, get_field user "inbox" <> VStr s) ->
  exists e,
    (sendInboxMessage env userId text w).1 = Throw e
    /\ trace (sendInboxMessage env userId text w).2 = trace w ++ [GetLiveUser userId]
    /\ stores (sendInboxMessage env userId text w).2 = stores w.
Proof.
  intros Hu H0 Ht Ha Hs.
  destruct (iterate_not_iterable _ Ht Ha Hs) as [e He]. exists e.
  unfold sendInboxMessage, bind.
  rewrite get_live_user_ok by exact H0. rewrite Hu.
  rewrite !Date_now_eq. rewrite He. unfold lift.
  repeat split.
Qed.

Lemma sendInboxMessage_unreadable_inbox_witness :
  exists e,
    (sendInboxMessage Sample.env_utc "u5" "hi" SampleMore.world1).1 = Throw e
    /\ trace (sendInboxMessage Sample.env_utc "u5" "hi" SampleMore.world1).2
       = [GetLiveUser "u5"]
    /\ stores (sendInboxMessage Sample.env_utc "u5" "hi" SampleMore.world1).2
       = stores SampleMore.world1.
Proof.
  apply (sendInboxMessage_unreadable_inbox Sample.env_utc "u5" "hi" SampleMore.erin
           SampleMore.world1 eq_refl eq_refl eq_refl).
  - intros l H. vm_compute in H. discriminate H.
  - intros s H. vm_compute in H. discriminate H.
Defined.

(* ===================================================================== *)
(** ** More on grantSubscription *)
(* ===================================================================== *)

Lemma grant_endDate_days (env : Env) (plan : string) (days t1 t2 : Z) :
  (plan = "WEEKLY" /\ days = 7) \/ (plan = "MONTHLY" /\ days = 30)
  \/ (plan = "YEARLY" /\ days = 365) ->
  getDate env t1 = getDate env t2 ->
  tza_local env (LocalTime env t2 + days * JsDate.msPerDay) = tza_utc env t2 ->
  Z.abs (t2 + days * JsDate.msPerDay) <= 8640000000000000 ->
  grant_endDate env plan t1 t2 = Some (Some (t2 + days * JsDate.msPerDay)).
Proof.
  intros Hp Hday Htz Hrange.
  assert (Hset : setDate env t2 (getDate env t1 + days)
                 = Some (t2 + days * JsDate.msPerDay)).
  { rewrite Hday, setDate_shift. unfold UTC. rewrite Htz.
    unfold LocalTime, JsDate.TimeClip.
    replace (t2 + tza_utc env t2 + days * JsDate.msPerDay - tza_utc env t2)
      with (t2 + days * JsDate.msPerDay) by lia.
    apply Z.leb_le in Hrange. rewrite Hrange. reflexivity. }
  destruct Hp as [[-> ->] | [[-> ->] | [-> ->]]];
    unfold grant_endDate; cbn [String.eqb Ascii.eqb Bool.eqb]; rewrite Hset; reflexivity.
Qed.

Lemma grant_endDate_undated (env : Env) (plan : string) (t1 t2 : Z) :
  dated_plan plan = false -> grant_endDate env plan t1 t2 = None.
Proof.
  unfold dated_plan, grant_endDate. intros H.
  apply orb_false_iff in H as [H Hy]. apply orb_false_iff in H as [Hw Hm].
  rewrite Hw, Hm, Hy. reflexivity.
Qed.

(** X6.  A MONTHLY grant ends 30 days and a YEARLY grant 365 days after the
    call, not a calendar month or year: under the conditions of the weekly
    grant (both clock readings on the same local day, the same local UTC
    offset at the end date) the record written back has
    [subscriptionEndDate] at the second reading plus that many days, and
    the new history entry carries the same end. *)
Theorem grant_monthly_yearly_days (env : Env) (userId plan level : string)
    (days : Z) (user : JsObject) (prior : list JsValue) (w : World) :
  (plan = "MONTHLY" /\ days = 30) \/ (plan = "YEARLY" /\ days = 365) ->
  live_users w !! userId = Some user ->
  iterate (js_or (get_field user "subscriptionHistory") (VArr [])) = Ok prior ->
  fault env (length (trace w)) = None ->
  fault env (S (length (trace w))) = None ->
  fault env (S (S (length (trace w)))) = None ->
  let t1 := clock env (clock_reads w) in
  let t2 := clock env (S (clock_reads w)) in
  getDate env t1 = getDate env t2 ->
  tza_local env (LocalTime env t2 + days * JsDate.msPerDay) = tza_utc env t2 ->
  Z.abs (t2 + days * JsDate.msPerDay) <= 8640000000000000 ->
  exists entry merged,
    (grantSubscription env userId plan level w).1
    = Ok ("User " +:+ userId +:+ " updated.")
    /\ trace (grantSubscription env userId plan level w).2
       = trace w ++ [GetLiveUser userId; GetLiveUser userId; SaveUserToLive merged]
    /\ get_field merged "subscriptionEndDate"
       = VStr (JsDate.isoString (t2 + days * JsDate.msPerDay))
    /\ get_field merged "subscriptionHistory" = VArr (VObj entry :: prior)
    /\ get_field entry "tier" = VStr plan
    /\ get_field entry "endDate"
       = VStr (JsDate.isoString (t2 + days * JsDate.msPerDay)).
Proof.
  intros Hp Hu Hit H0 H1 H2 t1 t2 Hday Htz Hrange.
  assert (Hend : grant_endDate env plan t1 t2
                 = Some (Some (t2 + days * JsDate.msPerDay))).
  { apply grant_endDate_days; [tauto | assumption ..]. }
  pose proof (grantSubscription_ok env userId plan level user prior w
                Hu Hit H0 H1 H2) as Hg.
  cbv zeta in Hg. fold t1 t2 in Hg. rewrite Hend in Hg.
  specialize (Hg ltac:(discriminate)).
  eexists. eexists. rewrite Hg. cbn [fst snd].
  split; [reflexivity |].
  split; [apply trace_after_grant |].
  split; [apply grant_updates_endDate |].
  split; [apply grant_updates_history |].
  split; reflexivity.
Qed.

Lemma grant_monthly_yearly_days_witness :
  exists merged,
    trace (grantSubscription Sample.env_utc "u1" "YEARLY" "ULTRA" Sample.world0).2
    = [GetLiveUser "u1"; GetLiveUser "u1"; SaveUserToLive merged]
    /\ get_field merged "subscriptionEndDate"
       = VStr (JsDate.isoString (Sample.t0 + 365 * JsDate.msPerDay)).
Proof.
  destruct (grant_monthly_yearly_days Sample.env_utc "u1" "YEARLY" "ULTRA" 365
              Sample.alice [VObj Sample.old_grant] Sample.world0
              (or_intror (conj eq_refl eq_refl))
              eq_refl eq_refl eq_refl eq_refl eq_refl eq_refl eq_refl
              ltac:(vm_compute; discriminate))
    as (entry & merged & _ & Ht & He & _).
  exists merged. split; [exact Ht | exact He].
Defined.

(** X7.  [grantSubscription] does not check the plan: any plan other than
    "WEEKLY", "MONTHLY" and "YEARLY" is granted like "LIFETIME", with no
    end date on the user and the end marker "LIFETIME" on the history
    entry, and is recorded under the name given. *)
Theorem grant_unknown_plan_is_lifetime (env : Env) (userId plan level : string)
    (user : JsObject) (prior : list JsValue) (w : World) :
  dated_plan plan = false ->
  live_users w !! userId = Some user ->
  iterate (js_or (get_field user "subscriptionHistory") (VArr [])) = Ok prior ->
  fault env (length (trace w)) = None ->
  fault env (S (length (trace w))) = None ->
  fault env (S (S (length (trace w)))) = None ->
  exists entry merged,
    (grantSubscription env userId plan level w).1
    = Ok ("User " +:+ userId +:+ " updated.")
    /\ trace (grantSubscription env userId plan level w).2
       = trace w ++ [GetLiveUser userId; GetLiveUser userId; SaveUserToLive merged]
    /\ get_field merged "subscriptionEndDate" = VUndefined
    /\ get_field merged "subscriptionTier" = VStr plan
    /\ get_field merged "isPremium" = VBool true
    /\ get_field merged "subscriptionHistory" = VArr (VObj entry :: prior)
    /\ get_field entry "tier" = VStr plan
    /\ get_field entry "endDate" = VStr "LIFETIME".
Proof.
  intros Hp Hu Hit H0 H1 H2.
  pose proof (grantSubscription_ok env userId plan level user prior w
                Hu Hit H0 H1 H2) as Hg.
  cbv zeta in Hg. rewrite (grant_endDate_undated env plan _ _ Hp) in Hg.
  specialize (Hg ltac:(discriminate)).
  eexists. eexists. rewrite Hg. cbn [fst snd].
  split; [reflexivity |].
  split; [apply trace_after_grant |].
  split; [apply grant_updates_endDate |].
  split; [apply spread_lookup_set; reflexivity |].
  split; [apply spread_lookup_set; reflexivity |].
  split; [apply grant_updates_history |].
  split; reflexivity.
Qed.

Lemma grant_unknown_plan_is_lifetime_witness :
  exists merged,
    trace (grantSubscription Sample.env_utc "u1" "DAILY" "BASIC" Sample.world0).2
    = [GetLiveUser "u1"; GetLiveUser "u1"; SaveUserToLive merged]
    /\ get_field merged "subscriptionEndDate" = VUndefined
    /\ get_field merged "subscriptionTier" = VStr "DAILY".
Proof.
  destruct (grant_unknown_plan_is_lifetime Sample.env_utc "u1" "DAILY" "BASIC"
              Sample.alice [VObj Sample.old_grant] Sample.world0
              eq_refl eq_refl eq_refl eq_refl eq_refl eq_refl)
    as (entry & merged & _ & Ht & He & Hp & _).
  exists merged. split; [exact Ht |]. split; [exact He | exact Hp].
Defined.

Lemma grant_updates_outside (plan level : string) (userEnd : JsValue)
    (h : list JsValue) (k : string) :
  k ∉ grant_fields -> grant_updates plan level userEnd h !! k = None.
Proof.
  intros Hk. unfold grant_fields in Hk.
  unfold grant_updates, obj; cbn [list_to_map foldr].
  rewrite !lookup_insert_ne by (intros <-; apply Hk; set_solver).
  apply lookup_empty.
Qed.

(** X8.  Whatever the plan, a grant that goes through marks the user
    premium and granted by the admin, records plan and level, and leaves
    every property of the user's record outside the six it sets as
    stored. *)
Theorem grant_sets_six_fields (env : Env) (userId plan level : string)
    (user : JsObject) (prior : list JsValue) (w : World) :
  live_users w !! userId = Some user ->
  iterate (js_or (get_field user "subscriptionHistory") (VArr [])) = Ok prior ->
  fault env (length (trace w)) = None ->
  fault env (S (length (trace w))) = None ->
  fault env (S (S (length (trace w)))) = None ->
  grant_endDate env plan (clock env (clock_reads w)) (clock env (S (clock_reads w)))
  <> Some None ->
  exists merged,
    trace (grantSubscription env userId plan level w).2
    = trace w ++ [GetLiveUser userId; GetLiveUser userId; SaveUserToLive merged]
    /\ get_field merged "isPremium" = VBool true
    /\ get_field merged "grantedByAdmin" = VBool true
    /\ get_field merged "subscriptionTier" = VStr plan
    /\ get_field merged "subscriptionLevel" = VStr level
    /\ (forall k, k ∉ grant_fields -> merged !! k = user !! k).
Proof.
  intros Hu Hit H0 H1 H2 Hend.
  pose proof (grantSubscription_ok env userId plan level user prior w
                Hu Hit H0 H1 H2) as Hg.
  cbv zeta in Hg. specialize (Hg Hend).
  eexists. rewrite Hg. cbn [snd].
  split; [apply trace_after_grant |].
  split; [apply spread_lookup_set; reflexivity |].
  split; [apply spread_lookup_set; reflexivity |].
  split; [apply spread_lookup_set; reflexivity |].
  split; [apply spread_lookup_set; reflexivity |].
  intros k Hk. apply spread_lookup_kept, grant_updates_outside. exact Hk.
Qed.

Lemma grant_sets_six_fields_witness :
  exists merged,
    trace (grantSubscription Sample.env_utc "u1" "WEEKLY" "BASIC" Sample.world0).2
    = [GetLiveUser "u1"; GetLiveUser "u1"; SaveUserToLive merged]
    /\ get_field merged "isPremium" = VBool true
    /\ merged !! "email" = Some (VStr "alice@example.com").
Proof.
  destruct (grant_sets_six_fields Sample.env_utc "u1" "WEEKLY" "BASIC"
              Sample.alice [VObj Sample.old_grant] Sample.world0
              eq_refl eq_refl eq_refl eq_refl eq_refl
              ltac:(vm_compute; discriminate))
    as (merged & Ht & Hp & _ & _ & _ & Hk).
  exists merged. split; [exact Ht |]. split; [exact Hp |].
  rewrite Hk; [reflexivity |].
  unfold grant_fields. rewrite !not_elem_of_union, !not_elem_of_singleton.
  repeat split; discriminate.
Defined.

(* ===================================================================== *)
(** ** The settings handlers *)
(* ===================================================================== *)

Lemma getSettings_ok (env : Env) (w : World) :
  fault env (length (trace w)) = None ->
  getSettings env w = (Ok (live_settings w), log_op GetLiveSettings w).
Proof.
  intros H. unfold getSettings, try_catch, get_live_settings.
  rewrite store_call_ok by exact H. reflexivity.
Qed.

Lemma getSettings_fault (env : Env) (w : World) (msg : string) :
  fault env (length (trace w)) = Some msg ->
  getSettings env w = (Ok None, log_op GetLiveSettings w).
Proof.
  intros H. unfold getSettings, try_catch, get_live_settings.
  rewrite (store_call_fault env _ _ _ msg H). reflexivity.
Qed.

(** Settings that cannot be had: there is no record, or the read fails. *)
Lemma getSettings_unavailable (env : Env) (w : World) :
  (live_settings w = None /\ fault env (length (trace w)) = None)
  \/ (exists msg, fault env (length (trace w)) = Some msg) ->
  getSettings env w = (Ok None, log_op GetLiveSettings w).
Proof.
  intros [[Hs Hf] | [msg Hf]].
  - rewrite getSettings_ok by exact Hf. rewrite Hs. reflexivity.
  - apply (getSettings_fault env w msg Hf).
Qed.

(** X9.  A failed read of the settings is handled as missing settings, the
    store's own message being dropped: [createWeeklyTest] throws "Settings
    not found", [updateSystemSettings] throws it under its wrapper, and
    [broadcastMessage] throws nothing and returns the text "Failed to
    fetch settings."; in each case the read is the only store call and
    nothing is written. *)
Theorem settings_unavailable (env : Env) (w : World) :
  (live_settings w = None /\ fault env (length (trace w)) = None)
  \/ (exists msg, fault env (length (trace w)) = Some msg) ->
  let w1 := log_op GetLiveSettings w in
  stores w1 = stores w
  /\ (forall name subject questionCount,
         createWeeklyTest env name subject questionCount w
         = (Throw "Settings not found", w1))
  /\ (forall updates,
         updateSystemSettings env updates w
         = (Throw "Failed to update settings: Settings not found", w1))
  /\ (forall message type giftValue,
         broadcastMessage env message type giftValue w
         = (Ok "Failed to fetch settings.", w1)).
Proof.
  intros H w1. pose proof (getSettings_unavailable env w H) as Hg.
  split; [reflexivity |]. split; [| split].
  - intros. unfold createWeeklyTest, bind. rewrite Hg. reflexivity.
  - intros. unfold updateSystemSettings, try_catch, bind. rewrite Hg. reflexivity.
  - intros. unfold broadcastMessage, bind. rewrite Hg. reflexivity.
Qed.

Lemma settings_unavailable_witness :
  createWeeklyTest Sample.env_down "Quiz" "Math" 10 SampleMore.world1
  = (Throw "Settings not found", log_op GetLiveSettings SampleMore.world1)
  /\ broadcastMessage Sample.env_utc "Hello" None None SampleMore.world_no_settings
     = (Ok "Failed to fetch settings.",
        log_op GetLiveSettings SampleMore.world_no_settings).
Proof.
  split.
  - apply (settings_unavailable Sample.env_down SampleMore.world1).
    right. exists "unavailable". reflexivity.
  - apply (settings_unavailable Sample.env_utc SampleMore.world_no_settings).
    left. split; reflexivity.
Defined.

Lemma saveSystemSettings_ok (env : Env) (s : JsObject) (w : World) :
  fault env (length (trace w)) = None ->
  fault env (S (length (trace w))) = None ->
  saveSystemSettings env s (log_op GetLiveSettings w) = (Ok tt, settings_saved s w).
Proof.
  intros H0 H1. unfold saveSystemSettings.
  rewrite store_call_ok by (rewrite trace_log_op; exact H1).
  unfold settings_saved, set_live_settings, log_op; simpl.
  rewrite <- app_assoc. reflexivity.
Qed.

(** X10.  [broadcastMessage] on existing settings writes them back with
    [noticeText] set to the message and every other property as stored,
    whatever [type] and [giftValue] are. *)
Theorem broadcastMessage_sets_notice (env : Env) (message : string)
    (type : option string) (giftValue : option Z) (s : JsObject) (w : World) :
  live_settings w = Some s ->
  fault env (length (trace w)) = None ->
  fault env (S (length (trace w))) = None ->
  let saved := <["noticeText" := VStr message]> s in
  (broadcastMessage env message type giftValue w).1
  = Ok "Broadcast banner updated successfully."
  /\ trace (broadcastMessage env message type giftValue w).2
     = trace w ++ [GetLiveSettings; SaveSystemSettings saved]
  /\ saved !! "noticeText" = Some (VStr message)
  /\ (forall k, k <> "noticeText" -> saved !! k = s !! k)
  /\ fs_users (broadcastMessage env message type giftValue w).2 = fs_users w
  /\ live_users (broadcastMessage env message type giftValue w).2 = live_users w.
Proof.
  intros Hs H0 H1 saved.
  unfold broadcastMessage, bind.
  rewrite getSettings_ok by exact H0. rewrite Hs.
  replace (spread s (obj [("noticeText", VStr message)])) with saved
    by (unfold saved, spread, obj; cbn [list_to_map foldr];
        rewrite insert_empty; apply insert_union_singleton_l).
  rewrite saveSystemSettings_ok by assumption.
  split; [reflexivity |]. split; [reflexivity |].
  split; [apply lookup_insert_eq |].
  split; [| split; reflexivity].
  intros k Hk. apply lookup_insert_ne. congruence.
Qed.

Lemma broadcastMessage_sets_notice_witness :
  (broadcastMessage Sample.env_utc "Exam on Friday" (Some "GIFT") (Some 50)
     Sample.world0).1
  = Ok "Broadcast banner updated successfully."
  /\ trace (broadcastMessage Sample.env_utc "Exam on Friday" (Some "GIFT") (Some 50)
              Sample.world0).2
     = [GetLiveSettings;
        SaveSystemSettings (<["noticeText" := VStr "Exam on Friday"]> Sample.settings0)].
Proof.
  destruct (broadcastMessage_sets_notice Sample.env_utc "Exam on Friday" (Some "GIFT")
              (Some 50) Sample.settings0 Sample.world0 eq_refl eq_refl eq_refl)
    as (Hr & Ht & _).
  split; [exact Hr | exact Ht].
Defined.

Lemma createWeeklyTest_ok (env : Env) (name subject : string)
    (questionCount : Z) (s : JsObject) (prior : list JsValue) (w : World) :
  live_settings w = Some s ->
  iterate (js_or (get_field s "weeklyTests") (VArr [])) = Ok prior ->
  fault env (length (trace w)) = None ->
  fault env (S (length (trace w))) = None ->
  let newTest := weekly_test name subject questionCount
                   (clock env (clock_reads w)) (clock env (S (clock_reads w))) in
  createWeeklyTest env name subject questionCount w
  = (Ok ("Weekly Test " +:+ dquote +:+ name +:+ dquote +:+ " created (Empty Questions)."),
     settings_saved (spread s (obj [("weeklyTests", VArr (prior ++ [VObj newTest]))]))
       (ticks 2 w)).
Proof.
  intros Hs Hit H0 H1 newTest.
  unfold createWeeklyTest, bind.
  rewrite getSettings_ok by exact H0. rewrite Hs.
  rewrite !Date_now_eq, !ticks_ticks. cbn [clock_reads ticks log_op Nat.add].
  rewrite Hit. unfold lift.
  fold (weekly_test name subject questionCount (clock env (clock_reads w))
          (clock env (S (clock_reads w)))).
  fold newTest.
  unfold saveSystemSettings.
  rewrite store_call_ok
    by (change (trace (ticks 2 (log_op GetLiveSettings w)))
          with (trace (log_op GetLiveSettings w));
        rewrite trace_log_op; exact H1).
  unfold ret, settings_saved, set_live_settings, log_op, ticks; simpl.
  rewrite <- app_assoc. reflexivity.
Qed.

(** X11.  [createWeeklyTest] on existing settings writes them back with the
    new test after the tests already there, in their order, and every
    other setting as stored.  The new test is active, has no questions,
    carries [questionCount] as its total and the subject as its only
    selected subject. *)
Theorem createWeeklyTest_appends (env : Env) (name subject : string)
    (questionCount : Z) (s : JsObject) (prior : list JsValue) (w : World) :
  live_settings w = Some s ->
  iterate (js_or (get_field s "weeklyTests") (VArr [])) = Ok prior ->
  fault env (length (trace w)) = None ->
  fault env (S (length (trace w))) = None ->
  let newTest := weekly_test name subject questionCount
                   (clock env (clock_reads w)) (clock env (S (clock_reads w))) in
  exists saved,
    (createWeeklyTest env name subject questionCount w).1
    = Ok ("Weekly Test " +:+ dquote +:+ name +:+ dquote +:+ " created (Empty Questions).")
    /\ trace (createWeeklyTest env name subject questionCount w).2
       = trace w ++ [GetLiveSettings; SaveSystemSettings saved]
    /\ get_field saved "weeklyTests" = VArr (prior ++ [VObj newTest])
    /\ (forall k, k <> "weeklyTests" -> saved !! k = s !! k)
    /\ get_field newTest "name" = VStr name
    /\ get_field newTest "isActive" = VBool true
    /\ get_field newTest "questions" = VArr []
    /\ get_field newTest "totalQuestions" = VNum questionCount
    /\ get_field newTest "selectedSubjects" = VArr [VStr subject].
Proof.
  intros Hs Hit H0 H1 newTest.
  pose proof (createWeeklyTest_ok env name subject questionCount s prior w
                Hs Hit H0 H1) as Hc.
  cbv zeta in Hc. fold newTest in Hc.
  eexists. rewrite Hc. cbn [fst snd].
  split; [reflexivity |].
  split; [reflexivity |].
  split; [apply spread_lookup_set; reflexivity |].
  split.
  { intros k Hk. apply spread_lookup_kept. unfold obj; cbn [list_to_map foldr].
    rewrite lookup_insert_ne by (intros E; apply Hk; symmetry; exact E).
    apply lookup_empty. }
  repeat split.
Qed.

Lemma createWeeklyTest_appends_witness :
  exists saved,
    trace (createWeeklyTest Sample.env_utc "Quiz" "Math" 10 SampleMore.world1).2
    = [GetLiveSettings; SaveSystemSettings saved]
    /\ get_field saved "weeklyTests"
       = VArr [VObj (obj [("id", VStr "test-1")]);
               VObj (weekly_test "Quiz" "Math" 10 Sample.t0 Sample.t0)]
    /\ saved !! "noticeText" = Some (VStr "Welcome").
Proof.
  destruct (createWeeklyTest_appends Sample.env_utc "Quiz" "Math" 10
              (obj [("noticeText", VStr "Welcome");
                    ("weeklyTests", VArr [VObj (obj [("id", VStr "test-1")])])])
              [VObj (obj [("id", VStr "test-1")])] SampleMore.world1
              eq_refl eq_refl eq_refl eq_refl)
    as (saved & _ & Ht & Hw & Hk & _).
  exists saved. split; [exact Ht |]. split; [exact Hw |].
  rewrite Hk by discriminate. reflexivity.
Defined.

(** X12.  [updateSystemSettings] on existing settings writes back the
    shallow merge of the supplied fields over them: a supplied field has
    the supplied value, any other keeps the stored one. *)
Theorem updateSystemSettings_merges (env : Env) (updates current : JsObject) (w : World) :
  live_settings w = Some current ->
  fault env (length (trace w)) = None ->
  fault env (S (length (trace w))) = None ->
  exists saved,
    (updateSystemSettings env updates w).1 = Ok "System Settings updated successfully."
    /\ trace (updateSystemSettings env updates w).2
       = trace w ++ [GetLiveSettings; SaveSystemSettings saved]
    /\ (forall k v, updates !! k = Some v -> saved !! k = Some v)
    /\ (forall k, updates !! k = None -> saved !! k = current !! k).
Proof.
  intros Hs H0 H1. exists (spread current updates).
  unfold updateSystemSettings, try_catch, bind.
  rewrite getSettings_ok by exact H0. rewrite Hs.
  rewrite saveSystemSettings_ok by assumption.
  split; [reflexivity |]. split; [reflexivity |].
  unfold spread. split.
  - intros k v Hk. apply lookup_union_Some_l. exact Hk.
  - intros k Hk. apply lookup_union_r. exact Hk.
Qed.

Lemma updateSystemSettings_merges_witness :
  exists saved,
    trace (updateSystemSettings Sample.env_utc {["maintenanceMode" := VBool true]}
             Sample.world0).2
    = [GetLiveSettings; SaveSystemSettings saved]
    /\ saved !! "maintenanceMode" = Some (VBool true)
    /\ saved !! "noticeText" = Some (VStr "Welcome").
Proof.
  destruct (updateSystemSettings_merges Sample.env_utc
              {["maintenanceMode" := VBool true]} Sample.settings0 Sample.world0
              eq_refl eq_refl eq_refl)
    as (saved & _ & Ht & Hset & Hkeep).
  exists saved. split; [exact Ht |]. split.
  - apply Hset. reflexivity.
  - rewrite Hkeep by reflexivity. reflexivity.
Defined.

(* ===================================================================== *)
(** ** The listing handlers *)
(* ===================================================================== *)

Lemma lastn_suffix {A} (n : nat) (l : list A) :
  exists older, l = older ++ lastn n l /\ length (lastn n l) = Nat.min n (length l).
Proof.
  unfold lastn. exists (firstn (length l - n) l). split.
  - symmetry. apply firstn_skipn.
  - rewrite length_skipn. lia.
Qed.

(** X13.  [getRecentLogs] returns at most [limit] entries (20 when no limit
    is given): the last [limit] log documents of the descending-timestamp
    order, all of them when there are fewer.  A limit that is not positive
    gives the empty list without any store call.  In no case is anything
    written. *)
Theorem getRecentLogs_bounded (env : Env) (limit : option Z) (w : World) :
  let lim := default 20 limit in
  let r := getRecentLogs env limit w in
  stores r.2 = stores w
  /\ (lim <= 0 -> r = (Ok [], w))
  /\ (0 < lim -> fault env (length (trace w)) = None ->
      exists older result,
        r.1 = Ok result
        /\ fs_logs w = older ++ result
        /\ length result = Nat.min (Z.to_nat lim) (length (fs_logs w))
        /\ trace r.2 = trace w ++ [QueryLogs lim]).
Proof.
  intros lim r. subst r. unfold getRecentLogs, try_catch, getDocs_logs. fold lim.
  destruct (Z.leb_spec lim 0) as [Hle | Hgt].
  - split; [reflexivity |]. split; [reflexivity |]. lia.
  - split; [| split; [lia |]].
    + unfold store_call. destruct (fault env (length (trace w))); reflexivity.
    + intros _ Hf. rewrite store_call_ok by exact Hf. cbn [fst snd].
      destruct (lastn_suffix (Z.to_nat lim) (fs_logs w)) as (older & Hs & Hl).
      exists older, (lastn (Z.to_nat lim) (fs_logs w)).
      split; [reflexivity |]. split; [exact Hs |]. split; [exact Hl | reflexivity].
Qed.

(** [scanUsers] with its read succeeding, for the three filters that need
    no clock. *)
Lemma scanUsers_ok (env : Env) (filter : string) (w : World) :
  fault env (length (trace w)) = None ->
  String.eqb filter "INACTIVE" = false ->
  let users := List.map snd (fs_users w) in
  scanUsers env filter w
  = (Ok (List.map summary
           (if String.eqb filter "FREE"
            then List.filter (fun u => negb (truthy (get_field u "isPremium"))) users
            else if String.eqb filter "PREMIUM"
                 then List.filter (fun u => truthy (get_field u "isPremium")) users
                 else users)),
     log_op GetDocsUsers w).
Proof.
  intros Hf Hi users.
  unfold scanUsers, bind, getAllUsers, try_catch, getDocs_users.
  rewrite store_call_ok by exact Hf. cbn [fst snd]. rewrite Hi.
  reflexivity.
Qed.

(** X14.  The PREMIUM and FREE scans split the ALL scan: every user is
    listed by exactly one of the two, by PREMIUM when [isPremium] is truthy
    and by FREE otherwise, so their lengths add up to the number of users.
    A filter other than "PREMIUM", "FREE" and "INACTIVE" lists every
    user, as "ALL" does. *)
Theorem scanUsers_premium_free_split (env : Env) (w : World) :
  fault env (length (trace w)) = None ->
  let users := List.map snd (fs_users w) in
  exists premium free,
    (scanUsers env "PREMIUM" w).1 = Ok (List.map summary premium)
    /\ (scanUsers env "FREE" w).1 = Ok (List.map summary free)
    /\ (scanUsers env "ALL" w).1 = Ok (List.map summary users)
    /\ (length premium + length free = length users)%nat
    /\ (forall u, In u premium <-> In u users /\ truthy (get_field u "isPremium") = true)
    /\ (forall u, In u free <-> In u users /\ truthy (get_field u "isPremium") = false)
    /\ (forall filter,
           filter <> "PREMIUM" -> filter <> "FREE" -> filter <> "INACTIVE" ->
           scanUsers env filter w = scanUsers env "ALL" w).
Proof.
  intros Hf users.
  exists (List.filter (fun u => truthy (get_field u "isPremium")) users),
         (List.filter (fun u => negb (truthy (get_field u "isPremium"))) users).
  rewrite !(scanUsers_ok env _ w Hf) by reflexivity. cbn [fst].
  split; [reflexivity |]. split; [reflexivity |]. split; [reflexivity |].
  split; [apply List.filter_length |].
  split; [intros u; apply filter_In |].
  split.
  - intros u. rewrite filter_In, negb_true_iff. reflexivity.
  - intros filter Hp Hfr Hi.
    apply String.eqb_neq in Hp, Hfr, Hi.
    rewrite (scanUsers_ok env filter w Hf Hi). cbv zeta. rewrite Hp, Hfr. reflexivity.
Qed.

Lemma scanUsers_premium_free_split_witness :
  exists premium free,
    (scanUsers Sample.env_utc "PREMIUM" Sample.world0).1 = Ok (List.map summary premium)
    /\ (scanUsers Sample.env_utc "FREE" Sample.world0).1 = Ok (List.map summary free)
    /\ (length premium + length free = 4)%nat
    /\ scanUsers Sample.env_utc "EVERYONE" Sample.world0
       = scanUsers Sample.env_utc "ALL" Sample.world0.
Proof.
  destruct (scanUsers_premium_free_split Sample.env_utc Sample.world0 eq_refl)
    as (premium & free & Hp & Hfr & _ & Hlen & _ & _ & Hother).
  exists premium, free. split; [exact Hp |]. split; [exact Hfr |].
  split; [exact Hlen |].
  apply Hother; discriminate.
Defined.

(** X15.  [scanUsers] only reads: whatever the filter and whether or not the
    read fails, it issues the one query for the user documents, throws
    nothing, and leaves both stores as they were. *)
Theorem scanUsers_read_only (env : Env) (filter : string) (w : World) :
  let r := scanUsers env filter w in
  stores r.2 = stores w
  /\ trace r.2 = trace w ++ [GetDocsUsers]
  /\ exists result, r.1 = Ok result.
Proof.
  cbv zeta.
  unfold scanUsers, bind, getAllUsers, try_catch, getDocs_users, store_call.
  destruct (fault env (length (trace w))); cbn [fst snd];
    destruct (String.eqb filter "INACTIVE");
    unfold ret; rewrite ?Date_now_eq; cbn [fst snd];
    (split; [reflexivity |]; split; [reflexivity |]; eexists; reflexivity).
Qed.

(* ===================================================================== *)
(** ** The shape of the catalog *)
(* ===================================================================== *)

(** X16.  The catalog is well formed: no two tools share a name, no two
    registry entries share a key, every parameter a tool requires is among
    the parameters it declares, and every enum-typed parameter is of type
    string. *)
Theorem catalog_well_formed :
  NoDup catalog_names
  /\ NoDup registry_keys
  /\ (forall t r, In t adminTools -> In r (tool_required t) ->
                  In r (List.map param_name (tool_properties t)))
  /\ (forall t p members, In t adminTools -> In p (tool_properties t) ->
                          param_enum p = Some members -> param_type p = "string").
Proof.
  split; [| split; [| split]].
  - apply (bool_decide_unpack (NoDup catalog_names)). vm_compute. exact I.
  - apply (bool_decide_unpack (NoDup registry_keys)). vm_compute. exact I.
  - intros t r Ht Hr. unfold adminTools in Ht. simpl in Ht.
    repeat (destruct Ht as [<- | Ht];
            [simpl in Hr |- *;
             repeat (destruct Hr as [<- | Hr]; [tauto |]); destruct Hr |]).
    destruct Ht.
  - intros t p members Ht Hp He.
    destruct (catalog_enum_parameters t p members Ht Hp He)
      as [[Hn [[Hpn _] | [Hpn _]]] | [Hn [Hpn _]]];
      unfold adminTools in Ht; simpl in Ht;
      repeat (destruct Ht as [<- | Ht];
              [simpl in Hp, Hn; try discriminate Hn;
               repeat (destruct Hp as [<- | Hp];
                       [simpl in Hpn |- *; try discriminate Hpn; try reflexivity |]);
               try destruct Hp |]);
      try destruct Ht.
Qed.

Lemma getRecentLogs_bounded_witness :
  getRecentLogs Sample.env_utc (Some 0) SampleMore.world1 = (Ok [], SampleMore.world1)
  /\ exists older result,
       (getRecentLogs Sample.env_utc (Some 2) SampleMore.world1).1 = Ok result
       /\ fs_logs SampleMore.world1 = older ++ result
       /\ length result = 2%nat.
Proof.
  split.
  - apply (getRecentLogs_bounded Sample.env_utc (Some 0) SampleMore.world1). simpl. lia.
  - destruct (getRecentLogs_bounded Sample.env_utc (Some 2) SampleMore.world1)
      as (_ & _ & H).
    destruct (H ltac:(simpl; lia) eq_refl) as (older & result & Hr & Hs & Hl & _).
    exists older, result. split; [exact Hr |]. split; [exact Hs | exact Hl].
Defined.

(* ===================================================================== *)
(** ** Text to speech *)
(* ===================================================================== *)

Section SpeechFacts.

Import Speech.

Variable toLowerCase : string -> string.
Variable JSON_parse : string -> Result JsValue.
Variable Rate : Type.
Variable rate_one : Rate.

Lemma find_none_iff {A} (p : A -> bool) (l : list A) :
  List.find p l = None <-> forall x, In x l -> p x = false.
Proof using Type.
  split.
  - apply find_none.
  - intros H. destruct (List.find p l) as [x |] eqn:E; [| reflexivity].
    apply find_some in E as [Hin Hp]. rewrite (H x Hin) in Hp. discriminate Hp.
Qed.

(** X17.  In [getCategorizedVoices] a voice listed under [others] is listed
    under neither [hindi] nor [indianEnglish], but the three lists do not
    cover every voice: a voice is in none of them exactly when its name
    mentions "india" while it is not Hindi and its language is neither
    "en-IN" nor contains "en". *)
Theorem categories_of_a_voice (voices : list Voice) (v : Voice) :
  let c := getCategorizedVoices toLowerCase voices in
  let lower := toLowerCase (voice_name v) in
  (In v (others c) -> ~ In v (hindi c) /\ ~ In v (indianEnglish c))
  /\ (In v voices ->
      (~ In v (hindi c) /\ ~ In v (indianEnglish c) /\ ~ In v (others c))
      <-> (includes lower "india" = true
           /\ includes (voice_lang v) "hi" = false
           /\ includes lower "hindi" = false
           /\ voice_lang v <> "en-IN"
           /\ includes (voice_lang v) "en" = false)).
Proof using toLowerCase.
  clear JSON_parse Rate rate_one.
  intros c lower. subst c. unfold getCategorizedVoices; cbn [hindi indianEnglish others].
  rewrite !filter_In. fold lower.
  destruct (includes (voice_lang v) "hi") eqn:Ehi,
           (includes lower "hindi") eqn:Ehindi,
           (includes lower "india") eqn:Eindia,
           (includes (voice_lang v) "en") eqn:Een,
           (String.eqb_spec (voice_lang v) "en-IN") as [Eq | Eq];
    cbn [negb andb orb]; split; intros; split; intros; intuition congruence.
Qed.

(** X18.  Whatever the stored settings, a voice [getPreferredVoice] returns
    is one of the available voices. *)
Theorem getPreferredVoice_available (voices : list Voice)
    (storedSettings : option string) (lang : string) (v : Voice) :
  getPreferredVoice JSON_parse voices storedSettings lang = Ok (Some v) ->
  In v voices.
Proof using JSON_parse.
  unfold getPreferredVoice, and_then.
  destruct (stored_preference JSON_parse storedSettings lang) as [name | e];
    [| discriminate].
  assert (Hfb : fallback_voice voices lang = Some v -> In v voices).
  { unfold fallback_voice, or_else.
    repeat match goal with
           | |- context [List.find ?p voices] =>
               let E := fresh "E" in
               destruct (List.find p voices) eqn:E;
               [apply find_some in E as [E _] |]
           end;
      destruct (String.eqb lang "hi"); intros H; try discriminate H;
      injection H as <-; assumption. }
  destruct (truthy name).
  - destruct (List.find (name_is name) voices) eqn:E.
    + intros H. injection H as <-. apply find_some in E as [E _]. exact E.
    + intros H. injection H as H. auto.
  - intros H. injection H as H. auto.
Qed.


Lemma stored_preference_parsed (s : string) (settings voiceConfig : JsObject)
    (lang : string) :
  s <> "" ->
  JSON_parse s = Ok (VObj settings) ->
  get_field settings "voiceConfig" = VObj voiceConfig ->
  stored_preference JSON_parse (Some s) lang
  = Ok (get_field voiceConfig
          (if String.eqb lang "hi" then "defaultHindiVoice" else "defaultEnglishVoice")).
Proof using JSON_parse.
  intros Hs Hp Hv. unfold stored_preference, and_then.
  apply String.eqb_neq in Hs. rewrite Hs, Hp. cbn [prop]. rewrite Hv. cbn [truthy prop].
  destruct (String.eqb lang "hi"); reflexivity.
Qed.

(** X19.  A voice name stored in the settings wins over the heuristics for
    either language when a voice of that name is available, the first such
    voice being taken; a stored name that no available voice bears is
    ignored and the heuristics decide. *)
Theorem getPreferredVoice_stored_name (voices : list Voice) (s : string)
    (settings voiceConfig : JsObject) (lang name : string) :
  s <> "" ->
  JSON_parse s = Ok (VObj settings) ->
  get_field settings "voiceConfig" = VObj voiceConfig ->
  get_field voiceConfig
    (if String.eqb lang "hi" then "defaultHindiVoice" else "defaultEnglishVoice")
  = VStr name ->
  name <> "" ->
  getPreferredVoice JSON_parse voices (Some s) lang
  = Ok (match List.find (fun v => String.eqb (voice_name v) name) voices with
        | Some v => Some v
        | None => fallback_voice voices lang
        end).
Proof using JSON_parse.
  intros Hs Hp Hv Hn Hne. unfold getPreferredVoice.
  rewrite (stored_preference_parsed s settings voiceConfig lang Hs Hp Hv), Hn.
  cbn [and_then truthy name_is].
  apply String.eqb_neq in Hne. rewrite Hne. cbn [negb].
  destruct (List.find _ voices); reflexivity.
Qed.

(** X20.  Without a stored preference [getPreferredVoice] finds no voice for
    Hindi exactly when no voice has "hi" in its language and none is named
    both "Google" and "Hindi"; for any other language, exactly when no
    voice has "India" in its name and none speaks "en-IN" or "en-US". *)
Theorem getPreferredVoice_none (voices : list Voice) (lang : string) :
  (lang = "hi" ->
   getPreferredVoice JSON_parse voices None lang = Ok None
   <-> forall v, In v voices ->
                 includes (voice_lang v) "hi" = false
                 /\ (includes (voice_name v) "Google"
                     && includes (voice_name v) "Hindi") = false)
  /\ (lang <> "hi" ->
      getPreferredVoice JSON_parse voices None lang = Ok None
      <-> forall v, In v voices ->
                    includes (voice_name v) "India" = false
                    /\ voice_lang v <> "en-IN" /\ voice_lang v <> "en-US").
Proof using JSON_parse.
  unfold getPreferredVoice, stored_preference, and_then, fallback_voice, or_else.
  cbn [truthy String.eqb negb].
  split.
  - intros ->. cbn [String.eqb Ascii.eqb Bool.eqb]. split.
    + intros H v Hin.
      destruct (List.find (fun v => includes (voice_name v) "Google"
                                    && includes (voice_name v) "Hindi") voices) eqn:E1;
        [discriminate H |].
      destruct (List.find (fun v => String.eqb (voice_lang v) "hi-IN") voices) eqn:E2;
        [discriminate H |].
      destruct (List.find (fun v => includes (voice_lang v) "hi") voices) eqn:E3;
        [discriminate H |].
      split; [exact (find_none _ _ E3 v Hin) | exact (find_none _ _ E1 v Hin)].
    + intros H.
      assert (E1 : List.find (fun v => includes (voice_name v) "Google"
                                       && includes (voice_name v) "Hindi") voices = None)
        by (apply find_none_iff; intros v Hin; apply (H v Hin)).
      assert (E3 : List.find (fun v => includes (voice_lang v) "hi") voices = None)
        by (apply find_none_iff; intros v Hin; apply (H v Hin)).
      assert (E2 : List.find (fun v => String.eqb (voice_lang v) "hi-IN") voices = None).
      { apply find_none_iff. intros v Hin.
        destruct (String.eqb_spec (voice_lang v) "hi-IN") as [Eq |]; [| reflexivity].
        destruct (H v Hin) as [Hhi _]. rewrite Eq in Hhi. discriminate Hhi. }
      rewrite E1, E2, E3. reflexivity.
  - intros Hl. apply String.eqb_neq in Hl. rewrite Hl. split.
    + intros H v Hin.
      destruct (List.find (fun v => includes (voice_name v) "Google"
                                    && includes (voice_name v) "India") voices) eqn:E1;
        [discriminate H |].
      destruct (List.find (fun v => String.eqb (voice_lang v) "en-IN") voices) eqn:E2;
        [discriminate H |].
      destruct (List.find (fun v => includes (voice_name v) "India") voices) eqn:E3;
        [discriminate H |].
      destruct (List.find (fun v => String.eqb (voice_lang v) "en-US") voices) eqn:E4;
        [discriminate H |].
      split; [exact (find_none _ _ E3 v Hin) |].
      split; apply String.eqb_neq.
      * exact (find_none _ _ E2 v Hin).
      * exact (find_none _ _ E4 v Hin).
    + intros H.
      assert (E3 : List.find (fun v => includes (voice_name v) "India") voices = None)
        by (apply find_none_iff; intros v Hin; apply (H v Hin)).
      assert (E1 : List.find (fun v => includes (voice_name v) "Google"
                                       && includes (voice_name v) "India") voices = None).
      { apply find_none_iff. intros v Hin. destruct (H v Hin) as [Hi _].
        rewrite Hi. apply andb_false_r. }
      assert (E2 : List.find (fun v => String.eqb (voice_lang v) "en-IN") voices = None)
        by (apply find_none_iff; intros v Hin; apply String.eqb_neq; apply (H v Hin)).
      assert (E4 : List.find (fun v => String.eqb (voice_lang v) "en-US") voices = None)
        by (apply find_none_iff; intros v Hin; apply String.eqb_neq; apply (H v Hin)).
      rewrite E1, E2, E3, E4. reflexivity.
Qed.

(** X21.  [speakText] never queues: where speech synthesis is supported it
    cancels what is queued and, unless choosing a voice throws, leaves
    exactly its own utterance, of pitch 1 and of the rate given (1 when
    none is); a voice passed in is used with its own language, whatever the
    stored settings and the available voices.  The [lang] argument has no
    effect, and without speech synthesis nothing happens. *)
Theorem speakText_replaces_queue (supported : bool) (voices : list Voice)
    (storedSettings : option string) (text : list N) (voice : option Voice)
    (rate : option Rate) (lang : option string) (queue : list (Utterance Rate)) :
  let r := speakText JSON_parse Rate rate_one supported voices storedSettings
             text voice rate lang queue in
  (supported = false -> r = (Ok tt, queue))
  /\ (supported = true ->
      (length r.2 <= 1)%nat
      /\ (forall u, In u r.2 ->
                    utt_text u = text /\ utt_pitch u = rate_one
                    /\ utt_rate u = default rate_one rate)
      /\ (r.1 = Ok tt <-> length r.2 = 1%nat)
      /\ (forall v, voice = Some v ->
                    r = (Ok tt, [mkUtterance text (Some v) (voice_lang v)
                                   (default rate_one rate) rate_one])))
  /\ (forall lang', speakText JSON_parse Rate rate_one supported voices storedSettings
                      text voice rate lang' queue = r).
Proof using JSON_parse rate_one.
  intros r. subst r. unfold speakText, cancel, speak.
  split; [intros ->; reflexivity |]. split; [| reflexivity].
  intros ->. cbn [negb].
  destruct voice as [v |].
  - cbn [app length fst snd]. split; [lia |]. split.
    + intros u [<- | []]. repeat split.
    + split; [split; reflexivity |]. intros v' H. injection H as <-. reflexivity.
  - destruct (getPreferredVoice JSON_parse voices storedSettings _) as [[v |] | e];
      cbn [app length fst snd].
    + split; [lia |]. split; [intros u [<- | []]; repeat split |].
      split; [split; reflexivity | discriminate].
    + split; [lia |]. split; [intros u [<- | []]; repeat split |].
      split; [split; reflexivity | discriminate].
    + split; [lia |]. split; [intros u [] |].
      split; [split; discriminate | discriminate].
Qed.

(** X22.  When no voice is passed and none is found, the utterance is marked
    "hi-IN" if the text has a Devanagari character and "en-US" otherwise;
    when the stored settings cannot be parsed, [speakText] throws after
    cancelling what was queued, and nothing is spoken. *)
Theorem speakText_without_voice (voices : list Voice) (storedSettings : option string)
    (text : list N) (rate : option Rate) (lang : option string)
    (queue : list (Utterance Rate)) :
  let r := speakText JSON_parse Rate rate_one true voices storedSettings
             text None rate lang queue in
  let isHindi := existsb devanagari text in
  (getPreferredVoice JSON_parse voices storedSettings (if isHindi then "hi" else "en")
   = Ok None ->
   r = (Ok tt, [mkUtterance text None (if isHindi then "hi-IN" else "en-US")
                  (default rate_one rate) rate_one]))
  /\ (forall s e, storedSettings = Some s -> s <> "" -> JSON_parse s = Throw e ->
                  r = (Throw e, [])).
Proof using JSON_parse rate_one.
  intros r isHindi. subst r. unfold speakText, cancel, speak. cbn [negb]. fold isHindi.
  split.
  - intros ->. reflexivity.
  - intros s e -> Hs Hp. unfold getPreferredVoice, stored_preference, and_then.
    apply String.eqb_neq in Hs. rewrite Hs, Hp. reflexivity.
Qed.

End SpeechFacts.

Lemma categories_of_a_voice_witness :
  let v := Speech.mkVoice "Tamil India" "ta-IN" in
  let c := Speech.getCategorizedVoices Speech.lower SampleMore.voices in
  In v SampleMore.voices
  /\ ~ In v (Speech.hindi c) /\ ~ In v (Speech.indianEnglish c) /\ ~ In v (Speech.others c).
Proof.
  intros v c. split; [simpl; tauto |].
  apply (proj2 (categories_of_a_voice Speech.lower SampleMore.voices v)).
  - simpl. tauto.
  - repeat split; try reflexivity. discriminate.
Defined.


Lemma getPreferredVoice_available_witness :
  Speech.getPreferredVoice SampleMore.parse SampleMore.voices None "hi"
  = Ok (Some (Speech.mkVoice "Google Hindi" "hi-IN"))
  /\ In (Speech.mkVoice "Google Hindi" "hi-IN") SampleMore.voices.
Proof.
  split; [reflexivity |].
  apply (getPreferredVoice_available SampleMore.parse SampleMore.voices None "hi"). reflexivity.
Defined.


Lemma getPreferredVoice_stored_name_witness :
  Speech.getPreferredVoice SampleMore.parse SampleMore.voices
    (Some "{voiceConfig:Rishi}") "hi"
  = Ok (Some (Speech.mkVoice "Rishi" "en-IN")).
Proof.
  apply (getPreferredVoice_stored_name SampleMore.parse SampleMore.voices
           "{voiceConfig:Rishi}"
           (obj [("voiceConfig",
                  VObj (obj [("defaultEnglishVoice", VStr "Rishi");
                             ("defaultHindiVoice", VStr "Rishi")]))])
           (obj [("defaultEnglishVoice", VStr "Rishi");
                 ("defaultHindiVoice", VStr "Rishi")])
           "hi" "Rishi");
    try reflexivity; discriminate.
Defined.

Lemma getPreferredVoice_none_witness :
  Speech.getPreferredVoice SampleMore.parse
    [Speech.mkVoice "Microsoft David" "en-US"] None "hi" = Ok None.
Proof.
  apply (proj1 (getPreferredVoice_none SampleMore.parse
                  [Speech.mkVoice "Microsoft David" "en-US"] "hi") eq_refl).
  intros v [<- | []]. split; reflexivity.
Defined.

Lemma speakText_replaces_queue_witness :
  let david := Speech.mkVoice "Microsoft David" "en-US" in
  let old := Speech.mkUtterance (Rate:=Z) [104%N] None "en-US" 1 1 in
  Speech.speakText SampleMore.parse Z 1 true SampleMore.voices (Some "not json")
    [104%N; 105%N] (Some david) (Some 2) None [old; old]
  = (Ok tt, [Speech.mkUtterance (Rate:=Z) [104%N; 105%N] (Some david) "en-US" 2 1])
  /\ Speech.speakText SampleMore.parse Z 1 false SampleMore.voices None
       [104%N] None None None [old]
     = (Ok tt, [old]).
Proof.
  intros david old. split.
  - destruct (speakText_replaces_queue SampleMore.parse Z 1 true SampleMore.voices
                (Some "not json") [104%N; 105%N] (Some david) (Some 2) None [old; old])
      as (_ & H & _).
    destruct (H eq_refl) as (_ & _ & _ & Hv). apply (Hv david eq_refl).
  - apply (proj1 (speakText_replaces_queue SampleMore.parse Z 1 false
                    SampleMore.voices None [104%N] None None None [old])).
    reflexivity.
Defined.

Lemma speakText_without_voice_witness :
  Speech.speakText SampleMore.parse Z 1 true [] None [2344%N; 2350%N] None None None []
  = (Ok tt, [Speech.mkUtterance (Rate:=Z) [2344%N; 2350%N] None "hi-IN" 1 1])
  /\ Speech.speakText SampleMore.parse Z 1 true SampleMore.voices (Some "not json")
       [104%N] None None None [Speech.mkUtterance (Rate:=Z) [104%N] None "en-US" 1 1]
     = (Throw "Unexpected token", []).
Proof.
  split.
  - apply (proj1 (speakText_without_voice SampleMore.parse Z 1 [] None
                    [2344%N; 2350%N] None None [])).
    reflexivity.
  - apply (proj2 (speakText_without_voice SampleMore.parse Z 1 SampleMore.voices
                    (Some "not json") [104%N] None None
                    [Speech.mkUtterance (Rate:=Z) [104%N] None "en-US" 1 1])
             "not json" "Unexpected token"); [reflexivity | discriminate | reflexivity].
Defined.

(* ===================================================================== *)
(** ** The usage gate of the student assistant *)
(* ===================================================================== *)

Section UsageGate.

Import AiAssistant.

Lemma js_or_truthy (v d : JsValue) : truthy d = true -> truthy (js_or v d) = true.
Proof. intros Hd. unfold js_or. destruct (truthy v) eqn:E; assumption. Qed.

Lemma js_or_falsy (v d : JsValue) : truthy v = false -> js_or v d = d.
Proof. intros Hv. unfold js_or. rewrite Hv. reflexivity. Qed.

Lemma limit_of_truthy (user : JsObject) (settings : option JsObject) :
  truthy (limit_of user settings) = true.
Proof.
  unfold limit_of.
  destruct settings as [s |];
    repeat match goal with
           | |- context [if ?b then _ else _] => destruct b
           end;
    try (apply js_or_truthy); reflexivity.
Qed.

Lemma current_count_stale (user : JsObject) (today : string) :
  str_is (get_field user "dailyAiDate") today = false ->
  current_count user today = VNum 0.
Proof. intros H. unfold current_count. rewrite H. reflexivity. Qed.

(** Where the comparison has a result, so has the sum. *)
Lemma js_ge_plus_one (a b : JsValue) (r : bool) :
  js_ge a b = Some r -> exists next, js_plus_one a = Some next.
Proof.
  unfold js_ge, js_plus_one. destruct a; try (eexists; reflexivity);
    cbn [ToNumber option_map]; try discriminate; eexists; reflexivity.
Qed.

(** X23.  The daily limit is always a truthy value, so never the number 0:
    a limit that the settings store as 0, as another falsy value, or leave
    out, falls back to the default of the tier (5 for free users, 50 for
    BASIC, 99999 otherwise).  A truthy value of another type is kept as
    it is: with the limit of free users stored as the string 0, the first
    query of a free user's day is refused, the limit shown being that
    string. *)
Theorem limit_is_truthy (user : JsObject) (settings : option JsObject) :
  truthy (limit_of user settings) = true
  /\ limit_of user settings <> VNum 0
  /\ (forall s aiLimits,
         settings = Some s ->
         get_field s "aiLimits" = VObj aiLimits ->
         (forall k, truthy (get_field aiLimits k) = false) ->
         limit_of user settings = VNum (tier_default user))
  /\ (forall s aiLimits now,
         settings = Some s ->
         get_field s "aiLimits" = VObj aiLimits ->
         get_field aiLimits "free" = VStr "0" ->
         truthy (get_field user "isPremium") = false ->
         ai_disabled settings = false ->
         str_is (get_field user "dailyAiDate") (today_of now) = false ->
         limit_of user settings = VStr "0"
         /\ handleSend false false settings user now = Some (LimitReached (VStr "0"))).
Proof.
  split; [apply limit_of_truthy |].
  split.
  { intros H. pose proof (limit_of_truthy user settings) as Ht.
    rewrite H in Ht. discriminate Ht. }
  split.
  - intros s aiLimits -> Hal Hz. unfold limit_of, tier_default. rewrite Hal.
    cbn [truthy field_of].
    destruct (truthy (get_field user "isPremium")); cbn [negb].
    + destruct (str_is (get_field user "subscriptionLevel") "BASIC");
        rewrite js_or_falsy by apply Hz; reflexivity.
    + rewrite js_or_falsy by apply Hz. reflexivity.
  - intros s aiLimits now -> Hal Hfree Hp Hen Hd.
    assert (Hl : limit_of user (Some s) = VStr "0").
    { unfold limit_of. rewrite Hal, Hp. cbn [truthy field_of negb].
      rewrite Hfree. reflexivity. }
    split; [exact Hl |].
    unfold handleSend. cbn [orb]. rewrite Hen, Hl.
    rewrite current_count_stale by exact Hd. reflexivity.
Qed.

(** X24.  A premium user whose level is neither "BASIC" nor "ULTRA" is
    limited like a BASIC user, to 50, when the settings carry no
    [aiLimits], but like an ULTRA user when they do: to the ultra limit
    stored there, or 99999 when that is 0, another falsy value, or left
    out. *)
Theorem limit_of_premium_without_level (user : JsObject) :
  truthy (get_field user "isPremium") = true ->
  str_is (get_field user "subscriptionLevel") "BASIC" = false ->
  str_is (get_field user "subscriptionLevel") "ULTRA" = false ->
  limit_of user None = VNum 50
  /\ (forall s, truthy (get_field s "aiLimits") = false ->
                limit_of user (Some s) = VNum 50)
  /\ (forall s, truthy (get_field s "aiLimits") = true ->
                limit_of user (Some s)
                = js_or (field_of (get_field s "aiLimits") "ultra") (VNum 99999))
  /\ (forall s aiLimits,
         get_field s "aiLimits" = VObj aiLimits ->
         truthy (get_field aiLimits "ultra") = false ->
         limit_of user (Some s) = VNum 99999).
Proof.
  intros Hp Hb Hu. unfold limit_of. rewrite Hp, Hu, Hb. cbn [negb].
  split; [reflexivity |]. split; [| split].
  - intros s ->. reflexivity.
  - intros s ->. reflexivity.
  - intros s aiLimits -> Hz. cbn [truthy field_of].
    rewrite js_or_falsy by exact Hz. reflexivity.
Qed.

Lemma usage_updates_outside (today : string) (next : JsValue) (k : string) :
  k <> "dailyAiDate" -> k <> "dailyAiCount" ->
  obj [("dailyAiDate", VStr today); ("dailyAiCount", next)] !! k = None.
Proof.
  intros H1 H2. unfold obj; cbn [list_to_map foldr].
  rewrite !lookup_insert_ne
    by (intros E; subst k; first [now apply H1 | now apply H2]).
  apply lookup_empty.
Qed.

Lemma ai_disabled_false (settings : option JsObject) :
  ai_disabled settings = false
  <-> forall s, settings = Some s -> get_field s "isAiEnabled" <> VBool false.
Proof.
  unfold ai_disabled. destruct settings as [s |].
  - destruct (get_field s "isAiEnabled") as [| | [|] | | | |] eqn:E;
      (split;
       [intros H s' Hs'; injection Hs' as <-; rewrite E;
        first [discriminate H | discriminate]
       | intros H; first [reflexivity | exfalso; exact (H s eq_refl E)]]).
  - split; [intros _ s Hs; discriminate Hs | reflexivity].
Qed.

(** X25.  [handleSend] goes on to the model exactly when the input is not
    blank, no request is running, the settings do not carry
    [isAiEnabled: false], and [currentCount >= limit] is false; on a
    counter and a limit that are numbers, that is when today's count is
    below the limit.  The record it then saves is the user's with
    [dailyAiDate] set to today, [dailyAiCount] to [currentCount + 1] (on a
    number, today's count plus one), and every other property
    unchanged. *)
Theorem handleSend_proceeds (blank isLoading : bool) (settings : option JsObject)
    (user : JsObject) (now : Z) :
  let today := today_of now in
  let count := current_count user today in
  let limit := limit_of user settings in
  ((exists updatedUser,
       handleSend blank isLoading settings user now = Some (Proceed updatedUser))
   <-> blank = false /\ isLoading = false
       /\ (forall s, settings = Some s -> get_field s "isAiEnabled" <> VBool false)
       /\ js_ge count limit = Some false)
  /\ (forall c l, count = VNum c -> limit = VNum l ->
                  (js_ge count limit = Some false <-> c < l))
  /\ (forall updatedUser,
         handleSend blank isLoading settings user now = Some (Proceed updatedUser) ->
         get_field updatedUser "dailyAiDate" = VStr today
         /\ js_plus_one count = Some (get_field updatedUser "dailyAiCount")
         /\ (forall c, count = VNum c ->
                       get_field updatedUser "dailyAiCount" = VNum (c + 1))
         /\ (forall k, k <> "dailyAiDate" -> k <> "dailyAiCount" ->
                       updatedUser !! k = user !! k)).
Proof.
  intros today count limit. unfold handleSend. fold today. fold count. fold limit.
  split; [| split].
  - destruct blank, isLoading; cbn [orb];
      try (split; [intros [u H]; discriminate H | intros (H1 & H2 & _); discriminate]).
    destruct (ai_disabled settings) eqn:E.
    + split; [intros [u H]; discriminate H |].
      intros (_ & _ & H & _). apply ai_disabled_false in H. congruence.
    + destruct (js_ge count limit) as [[|] |] eqn:Hge.
      * split; [intros [u H]; discriminate H | intros (_ & _ & _ & H'); discriminate H'].
      * destruct (js_ge_plus_one _ _ _ Hge) as [next Hnext]. rewrite Hnext.
        split; [| eauto].
        intros _. split; [reflexivity |]. split; [reflexivity |].
        split; [apply ai_disabled_false; exact E | reflexivity].
      * split; [intros [u H]; discriminate H | intros (_ & _ & _ & H'); discriminate H'].
  - intros c l -> ->. unfold js_ge. cbn [ToNumber].
    destruct (Z.leb_spec l c) as [Hle | Hlt]; split; intros H;
      first [lia | discriminate H | reflexivity].
  - intros updatedUser.
    destruct (blank || isLoading); [discriminate |].
    destruct (ai_disabled settings); [discriminate |].
    destruct (js_ge count limit) as [[|] |]; try discriminate.
    destruct (js_plus_one count) as [next |] eqn:Hnext; [| discriminate].
    intros H. injection H as <-.
    assert (Hc : get_field
                   (spread user (obj [("dailyAiDate", VStr today); ("dailyAiCount", next)]))
                   "dailyAiCount" = next)
      by (apply spread_lookup_set; reflexivity).
    split; [apply spread_lookup_set; reflexivity |].
    split; [f_equal; symmetry; exact Hc |].
    split.
    + intros c Hcount. transitivity next; [exact Hc |].
      rewrite Hcount in Hnext. cbn in Hnext. congruence.
    + intros k H1 H2. apply spread_lookup_kept, usage_updates_outside; assumption.
Qed.

(** X26.  The counter is per day: for a user whose [dailyAiDate] is not
    today's date, whatever the stored counter, [handleSend] never answers
    that the limit is reached while the limit is a positive number, the
    record it saves counts one query, and it does go on unless the tutor
    is disabled. *)
Theorem handleSend_new_day (settings : option JsObject) (user : JsObject)
    (now l : Z) :
  str_is (get_field user "dailyAiDate") (today_of now) = false ->
  ToNumber (limit_of user settings) = Some l ->
  0 < l ->
  (forall limit, handleSend false false settings user now <> Some (LimitReached limit))
  /\ (forall updatedUser,
         handleSend false false settings user now = Some (Proceed updatedUser) ->
         get_field updatedUser "dailyAiCount" = VNum 1)
  /\ (ai_disabled settings = false ->
      exists updatedUser,
        handleSend false false settings user now = Some (Proceed updatedUser)).
Proof.
  intros Hd Hl Hpos. unfold handleSend.
  rewrite current_count_stale by exact Hd. cbn [orb].
  assert (Hge : js_ge (VNum 0) (limit_of user settings) = Some false).
  { unfold js_ge. cbn [ToNumber]. rewrite Hl.
    destruct (Z.leb_spec l 0); [lia | reflexivity]. }
  rewrite Hge. cbn [js_plus_one ToNumber option_map].
  destruct (ai_disabled settings).
  - split; [intros; discriminate |]. split; [intros; discriminate | discriminate].
  - split; [intros; discriminate |]. split; [| eauto].
    intros updatedUser H. injection H as <-.
    apply spread_lookup_set. reflexivity.
Qed.

End UsageGate.

Lemma limit_is_truthy_witness :
  AiAssistant.limit_of Sample.bob
    (Some (obj [("aiLimits", VObj (obj [("free", VNum 0)]))])) = VNum 5
  /\ AiAssistant.limit_of Sample.bob (Some SampleMore.settings_free_string) = VStr "0"
  /\ AiAssistant.handleSend false false (Some SampleMore.settings_free_string)
       Sample.bob Sample.t0
     = Some (AiAssistant.LimitReached (VStr "0")).
Proof.
  split.
  - apply (proj1 (proj2 (proj2 (limit_is_truthy Sample.bob
                    (Some (obj [("aiLimits", VObj (obj [("free", VNum 0)]))])))))
             (obj [("aiLimits", VObj (obj [("free", VNum 0)]))])
             (obj [("free", VNum 0)]) eq_refl eq_refl).
    intros k. unfold get_field, obj; cbn [list_to_map foldr].
    destruct (decide (k = "free")) as [-> | Hk].
    + reflexivity.
    + rewrite lookup_insert_ne by (intros E; apply Hk; symmetry; exact E).
      reflexivity.
  - apply (proj2 (proj2 (proj2 (limit_is_truthy Sample.bob
                    (Some SampleMore.settings_free_string))))
             SampleMore.settings_free_string (obj [("free", VStr "0")]) Sample.t0
             eq_refl eq_refl eq_refl eq_refl eq_refl eq_refl).
Defined.

Lemma limit_of_premium_without_level_witness :
  AiAssistant.limit_of Sample.alice None = VNum 50
  /\ AiAssistant.limit_of Sample.alice (Some (obj [("aiLimits", VObj ∅)])) = VNum 99999.
Proof.
  destruct (limit_of_premium_without_level Sample.alice eq_refl eq_refl eq_refl)
    as (Hn & _ & _ & Hs).
  split; [exact Hn |].
  apply (Hs (obj [("aiLimits", VObj ∅)]) ∅ eq_refl).
  unfold get_field. rewrite lookup_empty. reflexivity.
Defined.

Lemma handleSend_proceeds_witness :
  exists updatedUser,
    AiAssistant.handleSend false false None Sample.bob Sample.t0
    = Some (AiAssistant.Proceed updatedUser)
    /\ get_field updatedUser "dailyAiDate" = VStr "2024-03-05"
    /\ get_field updatedUser "dailyAiCount" = VNum 1
    /\ updatedUser !! "name" = Some (VStr "Bob").
Proof.
  destruct (handleSend_proceeds false false None Sample.bob Sample.t0)
    as (Hiff & _ & Hrec).
  destruct (proj2 Hiff) as [u Hu].
  { split; [reflexivity |]. split; [reflexivity |].
    split; [intros s Hs; discriminate Hs |]. vm_compute. reflexivity. }
  exists u. split; [exact Hu |].
  destruct (Hrec u Hu) as (Hd & _ & Hc & Hk).
  split; [rewrite Hd; vm_compute; reflexivity |].
  split; [apply (Hc 0); vm_compute; reflexivity |].
  rewrite Hk by discriminate. reflexivity.
Defined.

Lemma handleSend_new_day_witness :
  let user := <["dailyAiCount" := VNum 99]>
                (<["dailyAiDate" := VStr "2024-03-04"]> Sample.bob) in
  exists updatedUser,
    AiAssistant.handleSend false false None user Sample.t0
    = Some (AiAssistant.Proceed updatedUser)
    /\ get_field updatedUser "dailyAiCount" = VNum 1.
Proof.
  intros user.
  destruct (handleSend_new_day None user Sample.t0 5
              ltac:(vm_compute; reflexivity) ltac:(vm_compute; reflexivity)
              ltac:(lia))
    as (_ & Hc & Hex).
  destruct (Hex eq_refl) as [u Hu].
  exists u. split; [exact Hu | exact (Hc u Hu)].
Defined.

(* ===================================================================== *)
(** ** The banner carousel *)
(* ===================================================================== *)

Section CarouselFacts.

Import Carousel.

Lemma iter_handleNext (banners : list JsValue) (k i : nat) :
  (0 < length (validBanners banners))%nat ->
  Nat.iter k (handleNext banners) i
  = if Nat.eqb k 0 then i else ((i + k) mod length (validBanners banners))%nat.
Proof.
  intros Hn. induction k as [| k IH]; [reflexivity |].
  change (Nat.iter (S k) (handleNext banners) i)
    with (handleNext banners (Nat.iter k (handleNext banners) i)).
  cbn [Nat.eqb]. rewrite IH. unfold handleNext.
  destruct (Nat.eqb_spec k 0) as [-> | Hk].
  - f_equal; lia.
  - rewrite Nat.Div0.add_mod_idemp_l. f_equal; lia.
Qed.

(** X27.  While there is a valid banner, SKIP keeps the index within the
    valid banners, whatever it was before: the banner then shown is one of
    the truthy banners passed in, and from an index in range as many clicks
    as there are valid banners lead back to the same banner. *)
Theorem handleNext_cycles (banners : list JsValue) (prev : nat) :
  let n := length (validBanners banners) in
  (0 < n)%nat ->
  (handleNext banners prev < n)%nat
  /\ (exists b, shown (Some banners) (handleNext banners prev) = Some (Some b)
                /\ In b banners /\ truthy b = true)
  /\ (forall k, (0 < k)%nat ->
                Nat.iter k (handleNext banners) prev = ((prev + k) mod n)%nat)
  /\ ((prev < n)%nat -> Nat.iter n (handleNext banners) prev = prev).
Proof.
  intros n Hn.
  assert (Hlt : (handleNext banners prev < n)%nat)
    by (unfold handleNext; apply Nat.mod_upper_bound; lia).
  split; [exact Hlt |]. split; [| split].
  - destruct (nth_error (validBanners banners) (handleNext banners prev)) as [b |] eqn:E.
    + exists b. unfold shown. fold n.
      assert (Hb : In b (validBanners banners)) by (eapply nth_error_In; exact E).
      apply filter_In in Hb as [Hin Ht].
      destruct (Nat.eqb_spec (length banners) 0) as [H0 | _].
      * apply length_zero_iff_nil in H0. subst banners. destruct Hin.
      * destruct (Nat.eqb_spec n 0) as [H0 | _]; [lia |].
        rewrite E. auto.
    + apply nth_error_None in E. fold n in E. lia.
  - intros k Hk. rewrite iter_handleNext by exact Hn. fold n.
    destruct (Nat.eqb_spec k 0); [lia | reflexivity].
  - intros Hp. rewrite iter_handleNext by exact Hn. fold n.
    destruct (Nat.eqb_spec n 0); [lia |].
    rewrite <- (Nat.mul_1_l n) at 1. rewrite Nat.Div0.mod_add.
    apply Nat.mod_small. exact Hp.
Qed.

(** X28.  The carousel renders nothing exactly when it is given no banner
    that is truthy (none at all, or only [null], [false], 0 and the like);
    given one, an index past the last valid banner leaves the banner slot
    empty. *)
Theorem shown_nothing (banners : option (list JsValue)) (currentIndex : nat) :
  (shown banners currentIndex = None
   <-> forall bs b, banners = Some bs -> In b bs -> truthy b = false)
  /\ (forall bs, banners = Some bs ->
                 (0 < length (validBanners bs) <= currentIndex)%nat ->
                 shown banners currentIndex = Some None).
Proof.
  unfold shown. destruct banners as [bs |].
  - split.
    + destruct (Nat.eqb_spec (length bs) 0) as [H0 | Hne].
      * apply length_zero_iff_nil in H0. subst bs. split; [| reflexivity].
        intros _ bs' b Hbs Hin. injection Hbs as <-. destruct Hin.
      * destruct (Nat.eqb_spec (length (validBanners bs)) 0) as [H0 | Hv].
        -- split; [| reflexivity]. intros _ bs' b Hbs Hin. injection Hbs as <-.
           apply length_zero_iff_nil in H0.
           destruct (truthy b) eqn:Ht; [| reflexivity].
           assert (Hb : In b (validBanners bs)) by (apply filter_In; auto).
           rewrite H0 in Hb. destruct Hb.
        -- split; [discriminate |]. intros H. exfalso. apply Hv.
           apply length_zero_iff_nil. unfold validBanners.
           destruct (List.filter truthy bs) as [| b l] eqn:E; [reflexivity |].
           assert (Hb : In b (List.filter truthy bs)) by (rewrite E; left; reflexivity).
           apply filter_In in Hb as [Hin Ht]. rewrite (H bs b eq_refl Hin) in Ht.
           discriminate Ht.
    + intros bs' Hbs [Hpos Hle]. injection Hbs as <-.
      destruct (Nat.eqb_spec (length bs) 0) as [H0 | _].
      * apply length_zero_iff_nil in H0. subst bs. simpl in Hpos. lia.
      * destruct (Nat.eqb_spec (length (validBanners bs)) 0) as [H0 | _]; [lia |].
        f_equal. apply nth_error_None. exact Hle.
  - split; [| intros bs H; discriminate H].
    split; [intros _ bs b H; discriminate H | reflexivity].
Qed.

End CarouselFacts.

Lemma handleNext_cycles_witness :
  let banners := [VNull; VStr "sale"; VBool false; VStr "exam"; VStr "news"] in
  Carousel.handleNext banners 2%nat = 0%nat
  /\ Nat.iter 3 (Carousel.handleNext banners) 1%nat = 1%nat.
Proof.
  intros banners.
  destruct (handleNext_cycles banners 2%nat ltac:(simpl; lia)) as (_ & _ & Hk & _).
  destruct (handleNext_cycles banners 1%nat ltac:(simpl; lia)) as (_ & _ & _ & Hn).
  split.
  - apply (Hk 1%nat). lia.
  - apply Hn. simpl. lia.
Defined.

Lemma shown_nothing_witness :
  Carousel.shown (Some [VNull; VBool false; VNum 0]) 0%nat = None
  /\ Carousel.shown (Some [VStr "sale"; VNull]) 3%nat = Some None.
Proof.
  split.
  - apply (proj1 (shown_nothing (Some [VNull; VBool false; VNum 0]) 0%nat)).
    intros bs b Hbs Hin. injection Hbs as <-.
    simpl in Hin. destruct Hin as [<- | [<- | [<- | []]]]; reflexivity.
  - apply (proj2 (shown_nothing (Some [VStr "sale"; VNull]) 3%nat) [VStr "sale"; VNull]
             eq_refl).
    simpl. lia.
Defined.
